(** * Novus Academica: the LLM orchestration pipeline

    A shallow embedding of [src/services/geminiService.ts] and of the
    drafting handlers of [src/App.tsx].  The repository carries two
    variants of each file; they are embedded side by side:

    - [VariantA]: the first variant of the service (single tier, no
      condensation), with [AppA], the application that goes with it;
    - [VariantB]: the second variant (tiered fallback, map-reduce
      condensation, text tools, advisory dialogue), with [AppB].

    Asynchronous code is written in a state-and-exception monad over a
    [World]: the chronological trace of observable events (provider calls,
    timer delays, alerts) and the React state store.  Every [await] is a
    suspension point at which the environment may update the store.
    [console] output is diagnostic only and is not part of the trace.
    Building the client ([getAI]) is taken to succeed: the application
    renders nothing but a configuration error when the API key is missing.
    A string is the sequence of bytes of its UTF-8 encoding (a lone
    surrogate as its three-byte generalised form), so positions and
    lengths of the code are counted in UTF-16 code units where they
    matter. *)

From Stdlib Require Import String Ascii List ZArith Lia Bool Arith.
From Stdlib Require Import DecimalString.
Import ListNotations.
Open Scope string_scope.

(* ================================================================== *)
(** * JavaScript string helpers *)
(* ================================================================== *)

Definition nl : string := String (ascii_of_nat 10) EmptyString.
Definition dquote : string := String (ascii_of_nat 34) EmptyString.

(** [String.prototype.toLowerCase], on the ASCII letters. *)
Definition lowerAscii (c : ascii) : ascii :=
  let n := nat_of_ascii c in
  if (65 <=? n)%nat && (n <=? 90)%nat then ascii_of_nat (n + 32) else c.

Fixpoint toLowerCase (s : string) : string :=
  match s with
  | EmptyString => EmptyString
  | String c s' => String (lowerAscii c) (toLowerCase s')
  end.

(** [s.includes(sub)] *)
Fixpoint includes (s sub : string) : bool :=
  String.prefix sub s ||
  match s with
  | EmptyString => false
  | String _ s' => includes s' sub
  end.

(** [s.endsWith(suf)] *)
Definition endsWith (s suf : string) : bool :=
  (String.length suf <=? String.length s)%nat &&
  String.eqb (substring (String.length s - String.length suf) (String.length suf) s) suf.

(** JavaScript truthiness of a string: only the empty string is falsy. *)
Definition truthy (s : string) : bool := negb (String.eqb s "").

(** [xs.join(sep)] *)
Fixpoint join (sep : string) (xs : list string) : string :=
  match xs with
  | [] => ""
  | [x] => x
  | x :: rest => x ++ sep ++ join sep rest
  end.

(** [xs.slice(-n)]: the last [n] elements. *)
Definition sliceLast {A} (n : nat) (xs : list A) : list A :=
  skipn (length xs - n) xs.

(** [xs.map(f).filter(p => p !== null)] *)
Fixpoint mapNonNull {A B} (f : A -> option B) (xs : list A) : list B :=
  match xs with
  | [] => []
  | x :: rest =>
      match f x with
      | Some y => y :: mapNonNull f rest
      | None => mapNonNull f rest
      end
  end.

(** A value of type [string | undefined]: [x || dflt]. *)
Definition orElse (x : option string) (dflt : string) : string :=
  match x with
  | Some s => if truthy s then s else dflt
  | None => dflt
  end.

(** A value of type [string | undefined] inside a template literal. *)
Definition interpolate (x : option string) : string :=
  match x with
  | Some s => s
  | None => "undefined"
  end.

(* ================================================================== *)
(** * Data model ([types.ts]) *)
(* ================================================================== *)

Record UploadedFile := {
  name : string;
  type : string;
  data : string
}.

Inductive PaperSectionType :=
| Title | Abstract | Introduction | LiteratureReview | Methodology
| Results | Discussion | Conclusion | References.

(** The string value of each enum member. *)
Definition sectionTypeName (t : PaperSectionType) : string :=
  match t with
  | Title => "Title"
  | Abstract => "Abstract"
  | Introduction => "Introduction"
  | LiteratureReview => "Literature Review"
  | Methodology => "Methodology"
  | Results => "Results"
  | Discussion => "Discussion"
  | Conclusion => "Conclusion"
  | References => "References"
  end.

Record PaperSection := {
  id : string;
  sectionType : PaperSectionType;
  title : string;
  content : string;
  isGenerating : bool;
  notes : string
}.

Record QualityChecklist := {
  novelty_check : string;
  significance_check : string;
  clarity_check : string;
  journal_fit_check : string
}.

Inductive Role := user | model.

Definition roleName (r : Role) : string :=
  match r with user => "user" | model => "model" end.

Record ChatMessage := {
  role : Role;
  text : string;
  timestamp : Z
}.

Record ResearchState := {
  files : list UploadedFile;
  paperTitle : string;
  researchGap : string;
  noveltyClaim : string;
  targetJournal : string;
  methodologyPlan : string;
  expectedResults : string;
  qualityChecklist : option QualityChecklist;
  extractedReferences : list string;
  chatHistory : list ChatMessage;
  isChatOpen : bool;
  sections : list PaperSection;
  activeSectionId : option string
}.

Inductive MagicToolType := Expand | Condense | FixGrammar | MakeRigorous.

Inductive HumanizeLevel := Standard | AcademicFlow | HighBurstiness.

(** Values produced by [JSON.parse]. *)
#[warnings="-register-all"]
Inductive json :=
| JNull
| JBool (b : bool)
| JNum (n : Z)
| JStr (s : string)
| JArr (items : list json)
| JObj (fields : list (string * json)).

(* ================================================================== *)
(** * The provider interface *)
(* ================================================================== *)

(** A content part of a request. *)
Inductive Part :=
| InlineData (mimeType : string) (bytes : string)
| TextPart (txt : string).

Inductive Contents :=
| Parts (ps : list Part)
| Prompt (p : string).

(** The argument of [ai.models.generateContent]; [jsonConfig] tells whether
    the schema-constrained JSON configuration is attached. *)
Record Request := {
  modelName : string;
  contents : Contents;
  jsonConfig : bool
}.

(** A thrown value; [message] may be undefined. *)
Record JSError := { message : option string }.

Definition mkError (msg : string) : JSError := {| message := Some msg |}.

(** A [GenerateContentResponse]; its [text] getter may yield undefined. *)
Record Response := { responseText : option string }.

Inductive Outcome :=
| Resolved (r : Response)
| Rejected (e : JSError).

Inductive Event :=
| EvCall (req : Request)
| EvDelay (ms : Z)
| EvAlert (msg : string).

Record World := {
  trace : list Event;
  store : ResearchState
}.

(** What the code runs against: the provider (a black box that answers a
    request given everything observed so far), the other tasks of the event
    loop (which may update the store at each suspension point), the platform
    functions [atob], [TextDecoder.decode] and [JSON.parse], and the wording
    of the long fixed prompts. *)
Record Host := {
  provider : list Event -> Request -> Outcome;
  interleave : list Event -> ResearchState -> ResearchState;
  atob : string -> option string;
  decodeUtf8 : string -> string;
  JSON_parse : string -> JSError + json;
  analysisPromptA : string;
  analysisPromptB : string;
  summaryPrompt : string;
  sectionPromptA :
    string -> string -> string -> string -> string -> string -> string;
  sectionPromptB :
    string -> string -> string -> string -> string -> string -> string
}.

(* ================================================================== *)
(** * The monad of asynchronous computations *)
(* ================================================================== *)

Inductive Result (A : Type) :=
| Ok (a : A)
| Throw (e : JSError).
Arguments Ok {A} a.
Arguments Throw {A} e.

Definition Async (A : Type) : Type := World -> Result A * World.

Definition ret {A} (a : A) : Async A := fun w => (Ok a, w).

Definition throw {A} (e : JSError) : Async A := fun w => (Throw e, w).

Definition bind {A B} (m : Async A) (k : A -> Async B) : Async B :=
  fun w =>
    match m w with
    | (Ok a, w') => k a w'
    | (Throw e, w') => (Throw e, w')
    end.

(** [try { m } catch (e) { h e }] *)
Definition tryCatch {A} (m : Async A) (h : JSError -> Async A) : Async A :=
  fun w =>
    match m w with
    | (Ok a, w') => (Ok a, w')
    | (Throw e, w') => h e w'
    end.

Declare Scope async_scope.
Delimit Scope async_scope with async.
Notation "x <- m ;; k" := (bind m (fun x => k))
  (at level 61, m at next level, right associativity) : async_scope.
Notation "m ;;; k" := (bind m (fun _ => k))
  (at level 61, right associativity) : async_scope.
Open Scope async_scope.

Definition emit (ev : Event) : World -> World :=
  fun w => {| trace := trace w ++ [ev]; store := store w |}.

(** A suspension point: the other tasks of the event loop run. *)
Definition suspend (H : Host) : World -> World :=
  fun w => {| trace := trace w; store := interleave H (trace w) (store w) |}.

(** [await ai.models.generateContent(req)] *)
Definition generateContent (H : Host) (req : Request) : Async Response :=
  fun w =>
    let w' := suspend H (emit (EvCall req) w) in
    match provider H (trace w) req with
    | Resolved r => (Ok r, w')
    | Rejected e => (Throw e, w')
    end.

(** [await new Promise(resolve => setTimeout(resolve, ms))] *)
Definition sleep (H : Host) (ms : Z) : Async unit :=
  fun w => (Ok tt, suspend H (emit (EvDelay ms) w)).

(** [alert(msg)] *)
Definition alert (msg : string) : Async unit :=
  fun w => (Ok tt, emit (EvAlert msg) w).

(** [setState(prev => f prev)] *)
Definition setState (f : ResearchState -> ResearchState) : Async unit :=
  fun w => (Ok tt, {| trace := trace w; store := f (store w) |}).

(** [for (const x of xs) { ys.push(await f(x)) }] *)
Fixpoint forEach {A B} (f : A -> Async B) (xs : list A) : Async (list B) :=
  match xs with
  | [] => ret []
  | x :: rest =>
      y <- f x ;;
      ys <- forEach f rest ;;
      ret (y :: ys)
  end.

(* ================================================================== *)
(** * Helpers shared by both variants of the service *)
(* ================================================================== *)

Definition dropStr (n : nat) (s : string) : string :=
  substring n (String.length s - n) s.

(** A line terminator of the regular-expression dot starts at the head
    of [s]: LF, CR, U+2028 or U+2029 (bytes 226 128 168 and 226 128 169). *)
Definition lineTerminatorAt (s : string) : bool :=
  match s with
  | String c r =>
      Ascii.eqb c (ascii_of_nat 10) || Ascii.eqb c (ascii_of_nat 13) ||
      (Ascii.eqb c (ascii_of_nat 226) &&
       match r with
       | String d (String e _) =>
           Ascii.eqb d (ascii_of_nat 128) &&
           (Ascii.eqb e (ascii_of_nat 168) || Ascii.eqb e (ascii_of_nat 169))
       | _ => false
       end)
  | EmptyString => false
  end.

(** The greedy [.+;base64,] of the regular expression of [cleanBase64]:
    the text after the last [;base64,] that is reached without crossing a
    line terminator. *)
Fixpoint afterLastMarker (r : string) : option string :=
  match r with
  | EmptyString => None
  | String c r' =>
      let here := if String.prefix ";base64," r then Some (dropStr 8 r) else None in
      if lineTerminatorAt r then None
      else match afterLastMarker r' with
           | Some t => Some t
           | None => here
           end
  end.

(** [b64.replace(/^data:.+;base64,/, '')] *)
Definition cleanBase64 (b64 : string) : string :=
  if String.prefix "data:" b64 then
    match dropStr 5 b64 with
    | EmptyString => b64
    | String c r =>
        if lineTerminatorAt (String c r) then b64
        else match afterLastMarker r with
             | Some t => t
             | None => b64
             end
    end
  else b64.

(** [s.substring(0, n)]: the first [n] UTF-16 code units of [s].  A
    character of one, two or three bytes is one code unit; a character of
    four bytes is a surrogate pair, and when only its first half fits, the
    high surrogate is what remains. *)
Definition highSurrogate (b0 b1 b2 : ascii) : string :=
  let cp := (N.shiftl (N.land (N_of_ascii b0) 7) 18 +
             N.shiftl (N.land (N_of_ascii b1) 63) 12 +
             N.shiftl (N.land (N_of_ascii b2) 63) 6)%N in
  let hs := (55296 + N.shiftr (cp - 65536) 10)%N in
  String (ascii_of_nat 237)
    (String (ascii_of_N (128 + N.land (N.shiftr hs 6) 63))
       (String (ascii_of_N (128 + N.land hs 63)) EmptyString)).

Fixpoint takeCodeUnits (n : nat) (s : string) : string :=
  match n with
  | O => EmptyString
  | S n' =>
      match s with
      | EmptyString => EmptyString
      | String b0 r =>
          if (N_of_ascii b0 <? 192)%N then String b0 (takeCodeUnits n' r)
          else if (N_of_ascii b0 <? 224)%N then
            match r with
            | String b1 r2 => String b0 (String b1 (takeCodeUnits n' r2))
            | EmptyString => String b0 EmptyString
            end
          else if (N_of_ascii b0 <? 240)%N then
            match r with
            | String b1 (String b2 r3) =>
                String b0 (String b1 (String b2 (takeCodeUnits n' r3)))
            | _ => s
            end
          else
            match r with
            | String b1 (String b2 (String b3 r4)) =>
                match n' with
                | O => highSurrogate b0 b1 b2
                | S n'' =>
                    String b0 (String b1 (String b2 (String b3 (takeCodeUnits n'' r4))))
                end
            | _ => s
            end
      end
  end.

(** [decodeBase64Text]: a failure of [atob] is caught and yields [""]. *)
Definition decodeBase64Text (H : Host) (b64 : string) : string :=
  match atob H b64 with
  | Some binaryString => decodeUtf8 H binaryString
  | None => ""
  end.

(** [error.message?.toLowerCase() || ""] *)
Definition errorMsg (error : JSError) : string :=
  match message error with
  | Some m => toLowerCase m
  | None => ""
  end.

Definition proModel : string := "gemini-3-pro-preview".
Definition flashModel : string := "gemini-2.5-flash".

(** The fields a drafting request takes from the session. *)
Record DraftContext := {
  ctxFiles : list UploadedFile;
  ctxTitle : string;
  ctxGap : string;
  ctxNovelty : string;
  ctxTargetJournal : string;
  ctxMethodologyPlan : string;
  ctxExpectedResults : string;
  otherSections : list (PaperSectionType * string)
}.

Record PaperContext := {
  pcTitle : string;
  pcGap : string;
  pcNovelty : string
}.

(* ================================================================== *)
(** * The first variant of the service *)
(* ================================================================== *)

Module VariantA.
Section Service.
Variable H : Host.

Definition isRetryable (msg : string) : bool :=
  includes msg "429" ||
  includes msg "503" ||
  includes msg "quota" ||
  includes msg "resource exhausted" ||
  includes msg "rate limit".

(** [callWithRetry(fn, retries = 3, delayMs = 2000)].  [retries] is a
    count: no caller passes it, so it starts at 3 and goes down to 0;
    [isRetryable && retries > 0] is the first branch of the match. *)
Fixpoint callWithRetry {T} (fn : Async T) (retries : nat) (delayMs : Z) : Async T :=
  tryCatch fn (fun error =>
    let msg := errorMsg error in
    match isRetryable msg, retries with
    | true, S retries' =>
        sleep H delayMs ;;;
        callWithRetry fn retries' (delayMs * 2)
    | _, _ => throw error
    end).

Definition prepareFileParts (fs : list UploadedFile) : list Part :=
  mapNonNull (fun f =>
    let data := cleanBase64 (data f) in
    if includes (type f) "pdf" then
      Some (InlineData "application/pdf" data)
    else if includes (type f) "text" || endsWith (name f) ".txt" || endsWith (name f) ".md" then
      let text := decodeBase64Text H data in
      Some (TextPart ("[Source Document: " ++ name f ++ "]" ++ nl ++ text ++ nl ++ "---"))
    else None) fs.

Definition analysisRequest (fileParts : list Part) : Request :=
  {| modelName := proModel;
     contents := Parts (fileParts ++ [TextPart (analysisPromptA H)]);
     jsonConfig := true |}.

Definition analyzeFilesForNovelty (fs : list UploadedFile) : Async json :=
  let fileParts := prepareFileParts fs in
  if (length fileParts =? 0)%nat then
    throw (mkError "No valid PDF or Text files found to analyze.")
  else
    tryCatch
      (response <- callWithRetry (generateContent H (analysisRequest fileParts)) 3 2000 ;;
       match responseText response with
       | Some t =>
           if truthy t then
             match JSON_parse H t with
             | inr result => ret result
             | inl syntaxError => throw syntaxError
             end
           else throw (mkError "Empty response from AI")
       | None => throw (mkError "Empty response from AI")
       end)
      (fun error =>
         throw (mkError (orElse (message error) "Failed to analyze documents."))).

Definition previousContext (others : list (PaperSectionType * string)) : string :=
  join nl (map (fun s =>
    "[" ++ sectionTypeName (fst s) ++ " Summary]: " ++ takeCodeUnits 500 (snd s) ++ "...") others).

Definition draftRequest (st : PaperSectionType) (ctx : DraftContext) : Request :=
  {| modelName := flashModel;
     contents := Parts (prepareFileParts (ctxFiles ctx) ++
       [TextPart (sectionPromptA H (ctxTargetJournal ctx) (ctxTitle ctx) (ctxNovelty ctx)
                    (ctxMethodologyPlan ctx) (sectionTypeName st)
                    (previousContext (otherSections ctx)))]);
     jsonConfig := false |}.

Definition generateSectionContent (st : PaperSectionType) (ctx : DraftContext) : Async string :=
  tryCatch
    (response <- callWithRetry (generateContent H (draftRequest st ctx)) 3 2000 ;;
     ret (orElse (responseText response) "Failed to generate content."))
    (fun error =>
       ret ("Error generating content: " ++ interpolate (message error) ++
            ". Please try again later.")).

Definition levelName (level : HumanizeLevel) : string :=
  match level with
  | Standard => "Standard"
  | AcademicFlow => "Academic-Flow"
  | HighBurstiness => "High-Burstiness"
  end.

Definition styleInstruction (level : HumanizeLevel) : string :=
  match level with
  | Standard => "Improve flow, grammar, and clarity. Remove passive voice where appropriate."
  | AcademicFlow => "Use sophisticated academic transitions (e.g., 'Conversely', 'Furthermore', 'Notwithstanding'). Ensure paragraphs flow logically. Use varied sentence structures."
  | HighBurstiness =>
      "Maximize 'burstiness' and 'perplexity' to bypass AI detection. Mix very short, punchy sentences with long, intricate ones. Use specific, non-clich" ++
      String (ascii_of_nat 195) (String (ascii_of_nat 169) "") ++
      " vocabulary. Make it sound like a passionate human expert."
  end.

Definition humanizeRequest (text : string) (level : HumanizeLevel) : Request :=
  {| modelName := flashModel;
     contents := Prompt
       (nl ++ "    Refine the following text for a Q1 journal submission." ++ nl ++
        "    " ++ nl ++
        "    **Goal:** " ++ levelName level ++ nl ++
        "    **Instructions:** " ++ styleInstruction level ++ nl ++
        "    **Constraint:** Do not lose the technical details or citations." ++ nl ++
        "    " ++ nl ++
        "    **Original Text:**" ++ nl ++
        "    " ++ text ++ nl ++ "  ");
     jsonConfig := false |}.

Definition humanizeText (text : string) (level : HumanizeLevel) : Async string :=
  tryCatch
    (response <- callWithRetry (generateContent H (humanizeRequest text level)) 3 2000 ;;
     ret (orElse (responseText response) text))
    (fun error => throw (mkError (orElse (message error) "Failed to refine text"))).

End Service.
End VariantA.

(* ================================================================== *)
(** * The second variant of the service *)
(* ================================================================== *)

Module VariantB.
Section Service.
Variable H : Host.

Definition isRetryable (msg : string) : bool :=
  includes msg "429" ||
  includes msg "503" ||
  includes msg "quota" ||
  includes msg "resource exhausted".

(** [callWithRetry(fn, retries = 3, delayMs = 2000)].  [retries] is a
    count: no caller passes it, so it starts at 3 and goes down to 0;
    [isRetryable && retries > 0] is the first branch of the match. *)
Fixpoint callWithRetry {T} (fn : Async T) (retries : nat) (delayMs : Z) : Async T :=
  tryCatch fn (fun error =>
    let msg := errorMsg error in
    match isRetryable msg, retries with
    | true, S retries' =>
        sleep H delayMs ;;;
        callWithRetry fn retries' (delayMs * 2)
    | _, _ => throw error
    end).

Definition prepareFilePart (file : UploadedFile) : option Part :=
  let data := cleanBase64 (data file) in
  if includes (type file) "pdf" then
    Some (InlineData "application/pdf" data)
  else if includes (type file) "text" || endsWith (name file) ".txt" ||
          endsWith (name file) ".md" || endsWith (name file) ".tex" ||
          endsWith (name file) ".latex" then
    let text := decodeBase64Text H data in
    Some (TextPart ("[Source Document: " ++ name file ++ "]" ++ nl ++ text ++ nl ++ "---"))
  else None.

Definition summaryRequest (part : Part) : Request :=
  {| modelName := flashModel;
     contents := Parts [part; TextPart (summaryPrompt H)];
     jsonConfig := false |}.

Definition summarizeFile (file : UploadedFile) : Async string :=
  match prepareFilePart file with
  | None => ret ""
  | Some part =>
      tryCatch
        (response <- generateContent H (summaryRequest part) ;;
         ret ("[Summary of " ++ name file ++ "]:" ++ nl ++
              interpolate (responseText response) ++ nl ++ "---" ++ nl))
        (fun e => ret "")
  end.

Definition analysisRequest (tier : string) (processingParts : list Part) : Request :=
  {| modelName := tier;
     contents := Parts (processingParts ++ [TextPart (analysisPromptB H)]);
     jsonConfig := true |}.

(** [JSON.parse(response.text || "{}")] *)
Definition parseOrDefault (response : Response) : Async json :=
  match JSON_parse H (orElse (responseText response) "{}") with
  | inr result => ret result
  | inl syntaxError => throw syntaxError
  end.

(** The condensation strategy at the head of [analyzeFilesForNovelty]. *)
Definition condense (fs : list UploadedFile) : Async (list Part) :=
  if (2 <? length fs)%nat then
    summaries <- forEach (fun file =>
                   summary <- summarizeFile file ;;
                   sleep H 500 ;;;
                   ret summary) fs ;;
    let combinedContext := join nl summaries in
    ret [TextPart ("Here are summaries of the provided source materials:" ++ nl ++ combinedContext)]
  else
    ret (mapNonNull prepareFilePart fs).

Definition analyzeFilesForNovelty (fs : list UploadedFile) : Async json :=
  processingParts <- condense fs ;;
  tryCatch
    (response <- callWithRetry (generateContent H (analysisRequest proModel processingParts)) 3 2000 ;;
     parseOrDefault response)
    (fun error =>
       tryCatch
         (fallbackResponse <-
            callWithRetry (generateContent H (analysisRequest flashModel processingParts)) 3 2000 ;;
          parseOrDefault fallbackResponse)
         (fun finalError =>
            throw (mkError ("Analysis failed after retries: " ++ interpolate (message finalError))))).

Definition filesToPartsLimited (fs : list UploadedFile) : list Part :=
  mapNonNull prepareFilePart (firstn 3 fs).

Definition previousContext (others : list (PaperSectionType * string)) : string :=
  join nl (map (fun s =>
    "[" ++ sectionTypeName (fst s) ++ "]: " ++ takeCodeUnits 500 (snd s) ++ "...") others).

Definition draftRequest (st : PaperSectionType) (ctx : DraftContext) : Request :=
  {| modelName := flashModel;
     contents := Parts (filesToPartsLimited (ctxFiles ctx) ++
       [TextPart (sectionPromptB H (ctxTargetJournal ctx) (ctxTitle ctx) (ctxNovelty ctx)
                    (ctxMethodologyPlan ctx) (sectionTypeName st)
                    (previousContext (otherSections ctx)))]);
     jsonConfig := false |}.

Definition generateSectionContent (st : PaperSectionType) (ctx : DraftContext) : Async string :=
  tryCatch
    (response <- callWithRetry (generateContent H (draftRequest st ctx)) 3 2000 ;;
     ret (orElse (responseText response) "Failed."))
    (fun error => ret ("Error: " ++ interpolate (message error))).

Definition instruction (tool : MagicToolType) : string :=
  match tool with
  | Expand => "Expand this text with more detailed explanations, examples, and academic nuance. Increase word count by ~30%."
  | Condense => "Condense this text to be more concise and punchy without losing key technical meaning. Reduce word count by ~30%."
  | FixGrammar => "Fix all grammar, punctuation, and stylistic errors. Ensure perfect native-level academic English."
  | MakeRigorous => "Inject more mathematical formalism. Convert descriptive logic into LaTeX equations where possible. Use more precise terminology."
  end.

Definition magicRequest (text : string) (tool : MagicToolType) : Request :=
  {| modelName := flashModel;
     contents := Prompt
       (nl ++ "    Task: Apply the following transformation to the text: " ++
        dquote ++ instruction tool ++ dquote ++ nl ++
        "    " ++ nl ++
        "    Text:" ++ nl ++
        "    " ++ text ++ nl ++ "  ");
     jsonConfig := false |}.

Definition applyMagicTool (text : string) (tool : MagicToolType) : Async string :=
  tryCatch
    (response <- callWithRetry (generateContent H (magicRequest text tool)) 3 2000 ;;
     ret (orElse (responseText response) text))
    (fun error => ret text).

Definition systemContext (context : PaperContext) : string :=
  nl ++ "    You are the Chief Publication Officer (CPO) assisting an author." ++ nl ++
  "    Current Paper Context:" ++ nl ++
  "    Title: " ++ pcTitle context ++ nl ++
  "    Gap: " ++ pcGap context ++ nl ++
  "    Novelty: " ++ pcNovelty context ++ nl ++
  "    " ++ nl ++
  "    Answer the user's question about their paper. Be critical, helpful, and strategic (Q1 focus)." ++ nl ++
  "  ".

Definition conversation (history : list ChatMessage) : string :=
  join nl (map (fun h => roleName (role h) ++ ": " ++ text h) (sliceLast 10 history)).

Definition cpoRequest (tier query : string) (history : list ChatMessage)
           (context : PaperContext) : Request :=
  {| modelName := tier;
     contents := Prompt
       (systemContext context ++ nl ++ nl ++ "Previous Chat:" ++ nl ++
        conversation history ++ nl ++ nl ++ "User: " ++ query);
     jsonConfig := false |}.

Definition cannotAnswer : string := "I cannot answer that right now.".
Definition unavailable : string := "The CPO is currently unavailable (Quota Exceeded).".

Definition consultCPO (query : string) (history : list ChatMessage)
           (context : PaperContext) : Async string :=
  tryCatch
    (response <- callWithRetry (generateContent H (cpoRequest proModel query history context)) 3 2000 ;;
     ret (orElse (responseText response) cannotAnswer))
    (fun error =>
       tryCatch
         (response <- callWithRetry (generateContent H (cpoRequest flashModel query history context)) 3 2000 ;;
          ret (orElse (responseText response) cannotAnswer))
         (fun e => ret unavailable)).

Definition humanizeText (text : string) (level : HumanizeLevel) : Async string :=
  applyMagicTool text FixGrammar.

End Service.
End VariantB.

(* ================================================================== *)
(** * The application state and the drafting handlers *)
(* ================================================================== *)

Definition withSections (prev : ResearchState) (secs : list PaperSection) : ResearchState :=
  {| files := files prev;
     paperTitle := paperTitle prev;
     researchGap := researchGap prev;
     noveltyClaim := noveltyClaim prev;
     targetJournal := targetJournal prev;
     methodologyPlan := methodologyPlan prev;
     expectedResults := expectedResults prev;
     qualityChecklist := qualityChecklist prev;
     extractedReferences := extractedReferences prev;
     chatHistory := chatHistory prev;
     isChatOpen := isChatOpen prev;
     sections := secs;
     activeSectionId := activeSectionId prev |}.

Definition withChatHistory (prev : ResearchState) (chat : list ChatMessage) : ResearchState :=
  {| files := files prev;
     paperTitle := paperTitle prev;
     researchGap := researchGap prev;
     noveltyClaim := noveltyClaim prev;
     targetJournal := targetJournal prev;
     methodologyPlan := methodologyPlan prev;
     expectedResults := expectedResults prev;
     qualityChecklist := qualityChecklist prev;
     extractedReferences := extractedReferences prev;
     chatHistory := chat;
     isChatOpen := isChatOpen prev;
     sections := sections prev;
     activeSectionId := activeSectionId prev |}.

(** [{ ...s, isGenerating: true }] *)
Definition startGenerating (s : PaperSection) : PaperSection :=
  {| id := id s; sectionType := sectionType s; title := title s;
     content := content s; isGenerating := true; notes := notes s |}.

(** [{ ...s, isGenerating: false, content }] *)
Definition finishGenerating (newContent : string) (s : PaperSection) : PaperSection :=
  {| id := id s; sectionType := sectionType s; title := title s;
     content := newContent; isGenerating := false; notes := notes s |}.

(** [{ ...s, content: c }] *)
Definition replaceContent (c : string) (s : PaperSection) : PaperSection :=
  {| id := id s; sectionType := sectionType s; title := title s;
     content := c; isGenerating := isGenerating s; notes := notes s |}.

(** The updater passed to [setState] when drafting starts. *)
Definition markGenerating (sectionId : string) (prev : ResearchState) : ResearchState :=
  withSections prev
    (map (fun s => if String.eqb (id s) sectionId then startGenerating s else s) (sections prev)).

(** The updater passed to [setState] when the drafting task completes. *)
Definition commitDraft (sectionId newContent : string) (prev : ResearchState) : ResearchState :=
  withSections prev
    (map (fun s => if String.eqb (id s) sectionId then finishGenerating newContent s else s)
         (sections prev)).

(** The updater of a manual edit ([onUpdate], [handleUpdateSection]). *)
Definition updateSection (sectionId c : string) (prev : ResearchState) : ResearchState :=
  withSections prev
    (map (fun s => if String.eqb (id s) sectionId then replaceContent c s else s) (sections prev)).

(** The updater that appends one turn to the chat transcript. *)
Definition appendChat (msg : ChatMessage) (prev : ResearchState) : ResearchState :=
  withChatHistory prev (chatHistory prev ++ [msg]).

Definition INITIAL_SECTIONS : list PaperSectionType :=
  [Title; Abstract; Introduction; LiteratureReview; Methodology;
   Results; Discussion; Conclusion; References].

Definition initialState : ResearchState :=
  {| files := [];
     paperTitle := "";
     researchGap := "";
     noveltyClaim := "";
     targetJournal := "";
     methodologyPlan := "";
     expectedResults := "";
     qualityChecklist := None;
     extractedReferences := [];
     chatHistory := [];
     isChatOpen := false;
     sections := map (fun t =>
       {| id := sectionTypeName t; sectionType := t; title := sectionTypeName t;
          content := ""; isGenerating := false; notes := "" |}) INITIAL_SECTIONS;
     activeSectionId := Some (sectionTypeName Introduction) |}.

(** The test by which the application decides that an analysis result
    exists: the guard of the handlers and the blueprint card of the page
    both read [state.noveltyClaim]. *)
Definition hasAnalysis (st : ResearchState) : bool := truthy (noveltyClaim st).

(** [state.files.every(f => f.data && f.data.length > 0)] *)
Definition hasData (st : ResearchState) : bool :=
  forallb (fun f => truthy (data f) && (0 <? String.length (data f))%nat) (files st).

(** [state.sections.filter(s => s.id !== sectionId && s.content.length > 0)] *)
Definition otherDrafts (st : ResearchState) (sectionId : string) : list (PaperSectionType * string) :=
  map (fun s => (sectionType s, content s))
      (filter (fun s => negb (String.eqb (id s) sectionId) && (0 <? String.length (content s))%nat)
              (sections st)).

Definition draftContext (st : ResearchState) (sectionId : string) : DraftContext :=
  {| ctxFiles := files st;
     ctxTitle := paperTitle st;
     ctxGap := researchGap st;
     ctxNovelty := noveltyClaim st;
     ctxTargetJournal := targetJournal st;
     ctxMethodologyPlan := methodologyPlan st;
     ctxExpectedResults := expectedResults st;
     otherSections := otherDrafts st sectionId |}.

Definition withFiles (prev : ResearchState) (fs : list UploadedFile) : ResearchState :=
  {| files := fs;
     paperTitle := paperTitle prev;
     researchGap := researchGap prev;
     noveltyClaim := noveltyClaim prev;
     targetJournal := targetJournal prev;
     methodologyPlan := methodologyPlan prev;
     expectedResults := expectedResults prev;
     qualityChecklist := qualityChecklist prev;
     extractedReferences := extractedReferences prev;
     chatHistory := chatHistory prev;
     isChatOpen := isChatOpen prev;
     sections := sections prev;
     activeSectionId := activeSectionId prev |}.

(** The [AnalysisResult] interface of the second variant; [references] may
    be missing from the parsed object. *)
Record AnalysisResult := {
  arTitle : string;
  arTargetJournal : string;
  arGap : string;
  arNovelty : string;
  arMethodologyPlan : string;
  arExpectedResults : string;
  arChecklist : QualityChecklist;
  arReferences : option (list string)
}.

(** A browser [File], as far as the upload handlers read it. *)
Record BrowserFile := {
  fileName : string;
  fileType : string
}.

(** The number [n] inside a template literal. *)
Definition showNat (n : nat) : string := NilEmpty.string_of_uint (Nat.to_uint n).

(** [xs.filter((_, i) => i !== index)], counting positions from [i]. *)
Fixpoint dropIndexFrom {A} (i index : nat) (xs : list A) : list A :=
  match xs with
  | [] => []
  | x :: rest =>
      if (i =? index)%nat then dropIndexFrom (S i) index rest
      else x :: dropIndexFrom (S i) index rest
  end.

(** The white space and line terminators [String.prototype.trim]
    removes.  Of one byte: tab, LF, VT, FF, CR, space. *)
Definition asciiSpace (c : ascii) : bool :=
  let n := nat_of_ascii c in
  ((9 <=? n)%nat && (n <=? 13)%nat) || (n =? 32)%nat.

(** Of two bytes: U+00A0. *)
Definition twoByteSpace (c d : ascii) : bool :=
  (nat_of_ascii c =? 194)%nat && (nat_of_ascii d =? 160)%nat.

(** Of three bytes: U+1680, U+2000 to U+200A, U+2028, U+2029, U+202F,
    U+205F, U+3000 and U+FEFF. *)
Definition threeByteSpace (c d e : ascii) : bool :=
  let x := nat_of_ascii c in
  let y := nat_of_ascii d in
  let z := nat_of_ascii e in
  ((x =? 225) && (y =? 154) && (z =? 128))%nat ||
  ((x =? 226) && (y =? 128) &&
   (((128 <=? z) && (z <=? 138)) || (z =? 168) || (z =? 169) || (z =? 175)))%nat ||
  ((x =? 226) && (y =? 129) && (z =? 159))%nat ||
  ((x =? 227) && (y =? 128) && (z =? 128))%nat ||
  ((x =? 239) && (y =? 187) && (z =? 191))%nat.

(** [s.trimStart()] *)
Fixpoint trimStart (s : string) : string :=
  match s with
  | EmptyString => EmptyString
  | String c r =>
      if asciiSpace c then trimStart r
      else
        match r with
        | String d r2 =>
            if twoByteSpace c d then trimStart r2
            else
              match r2 with
              | String e r3 => if threeByteSpace c d e then trimStart r3 else s
              | EmptyString => s
              end
        | EmptyString => s
        end
  end.

(** [s.trimEnd()]: the bytes of [s] up to the point from which only white
    space follows. *)
Fixpoint trimEnd (s : string) : string :=
  match s with
  | EmptyString => EmptyString
  | String c r =>
      if String.eqb (trimStart s) "" then EmptyString else String c (trimEnd r)
  end.

(** [s.trim()] *)
Definition trim (s : string) : string := trimEnd (trimStart s).

(** [{ ...s, content: `# ${title}` }] on the title section of
    [startResearch]. *)
Definition titleSections (ttl : string) (secs : list PaperSection) : list PaperSection :=
  map (fun s =>
         match sectionType s with
         | Title => replaceContent ("# " ++ ttl) s
         | _ => s
         end) secs.

(** The application of the first variant.  [state] is the snapshot the
    handler closed over at the last render; the store is only reached
    through [setState]. *)
Module AppA.
Section Handlers.
Variable H : Host.

Definition handleGenerateSection (state : ResearchState) (sectionId : string) : Async unit :=
  if negb (hasAnalysis state) then alert "Run 'Deep Analysis' first."
  else if negb (hasData state) then alert "File data is missing. Re-upload files."
  else
    setState (markGenerating sectionId) ;;;
    match find (fun s => String.eqb (id s) sectionId) (sections state) with
    | None => ret tt
    | Some section =>
        content <- VariantA.generateSectionContent H (sectionType section)
                     (draftContext state sectionId) ;;
        setState (commitDraft sectionId content)
    end.

Definition handleUpdateSection (sectionId newContent : string) : Async unit :=
  setState (updateSection sectionId newContent).

(** The test of [handleFileUpload]: a file failing it is skipped. *)
Definition uploadAccepts (file : BrowserFile) : bool :=
  negb (negb (String.eqb (fileType file) "application/pdf") &&
        negb (String.eqb (fileType file) "text/plain") &&
        negb (endsWith (fileName file) ".txt")).

(** The [UploadedFile] pushed for an accepted file once it is read. *)
Definition uploaded (file : BrowserFile) (content : string) : UploadedFile :=
  {| name := fileName file;
     type := if truthy (fileType file) then fileType file else "application/octet-stream";
     data := content |}.

(** The updater [startResearch] passes to [setState]. *)
Definition commitAnalysis (analysis : AnalysisResult) (prev : ResearchState) : ResearchState :=
  {| files := files prev;
     paperTitle := arTitle analysis;
     researchGap := arGap analysis;
     noveltyClaim := arNovelty analysis;
     targetJournal := arTargetJournal analysis;
     methodologyPlan := arMethodologyPlan analysis;
     expectedResults := arExpectedResults analysis;
     qualityChecklist := Some (arChecklist analysis);
     extractedReferences := extractedReferences prev;
     chatHistory := chatHistory prev;
     isChatOpen := isChatOpen prev;
     sections := titleSections (arTitle analysis) (sections prev);
     activeSectionId := activeSectionId prev |}.

End Handlers.
End AppA.

(** The application of the second variant. *)
Module AppB.
Section Handlers.
Variable H : Host.

Definition handleGenerateSection (state : ResearchState) (sectionId : string) : Async unit :=
  if negb (hasAnalysis state) then alert "Run Analysis first."
  else
    setState (markGenerating sectionId) ;;;
    match find (fun s => String.eqb (id s) sectionId) (sections state) with
    | None => ret tt
    | Some section =>
        content <- VariantB.generateSectionContent H (sectionType section)
                     (draftContext state sectionId) ;;
        setState (commitDraft sectionId content)
    end.

(** The test of [handleFileUpload] on the selected files. *)
Definition uploadAccepts (file : BrowserFile) : bool :=
  let name := toLowerCase (fileName file) in
  endsWith name ".pdf" ||
  endsWith name ".txt" ||
  endsWith name ".md" ||
  endsWith name ".tex" ||
  endsWith name ".latex" ||
  includes (fileType file) "text" ||
  includes (fileType file) "pdf".

(** The [UploadedFile] that [readFileAsData] resolves with. *)
Definition uploaded (file : BrowserFile) (content : string) : UploadedFile :=
  {| name := fileName file;
     type := if truthy (fileType file) then fileType file else "application/octet-stream";
     data := content |}.

(** The updater of [removeFile]. *)
Definition removeFile (index : nat) (prev : ResearchState) : ResearchState :=
  withFiles prev (dropIndexFrom 0 index (files prev)).

(** The updater [startResearch] passes to [setState]; [state] is the
    snapshot of the handler and [now] the clock reading. *)
Definition commitAnalysis (state : ResearchState) (result : AnalysisResult) (now : Z)
           (prev : ResearchState) : ResearchState :=
  {| files := files prev;
     paperTitle := arTitle result;
     researchGap := arGap result;
     noveltyClaim := arNovelty result;
     targetJournal := arTargetJournal result;
     methodologyPlan := arMethodologyPlan result;
     expectedResults := arExpectedResults result;
     qualityChecklist := Some (arChecklist result);
     extractedReferences := match arReferences result with
                            | Some refs => refs
                            | None => []
                            end;
     chatHistory := chatHistory prev ++
       [{| role := model;
           text := "I have analyzed " ++ showNat (length (files state)) ++
                   " documents. We are targeting " ++ arTargetJournal result ++
                   ". I identified a gap in " ++ arGap result ++
                   ". Shall we begin drafting?";
           timestamp := now |}];
     isChatOpen := true;
     sections := titleSections (arTitle result) (sections prev);
     activeSectionId := activeSectionId prev |}.

(** [handleChatSubmit]; [chatInput] is the text of the input box, [sent]
    and [answered] are the two clock readings.  The input box and the busy
    flag are local to the component and not part of the session state. *)
Definition handleChatSubmit (state : ResearchState) (chatInput : string)
           (sent answered : Z) : Async unit :=
  if negb (truthy (trim chatInput)) then ret tt
  else
    let userMsg := {| role := user; text := chatInput; timestamp := sent |} in
    setState (appendChat userMsg) ;;;
    replyText <- VariantB.consultCPO H (text userMsg) (chatHistory state)
                   {| pcTitle := paperTitle state;
                      pcGap := researchGap state;
                      pcNovelty := noveltyClaim state |} ;;
    setState (appendChat {| role := model; text := replyText; timestamp := answered |}).

End Handlers.

(** [saveProject], against a serialiser and a storage that refuses some
    strings ([setItem] throws on them).  The result is the string written
    under the storage key, if any, and the alerts shown. *)
Section Saving.
Variable stringify : ResearchState -> string.
Variable accepts : string -> bool.




End Saving.
End AppB.

(** The section editor of the first variant ([SectionEditor.tsx]);
    [onUpdate] is the callback the application passes.  The busy flags of
    the editors are local to the component and are left out. *)
Module EditorA.
Section Editor.
Variable H : Host.
Variable onUpdate : string -> string -> Async unit.

Definition handleHumanize (section : PaperSection) (humanizeLevel : HumanizeLevel)
  : Async unit :=
  if negb (truthy (content section)) then ret tt
  else
    tryCatch
      (newText <- VariantA.humanizeText H (content section) humanizeLevel ;;
       onUpdate (id section) newText)
      (fun e => alert "Failed to refine text.").

End Editor.
End EditorA.

(** The section editor of the second variant. *)
Module EditorB.
Section Editor.
Variable H : Host.
Variable onUpdate : string -> string -> Async unit.

Definition handleMagicTool (section : PaperSection) (tool : MagicToolType) : Async unit :=
  if negb (truthy (content section)) then ret tt
  else
    tryCatch
      (newText <- VariantB.applyMagicTool H (content section) tool ;;
       onUpdate (id section) newText)
      (fun e => alert "Tool failed.").

End Editor.
End EditorB.

(** The [onUpdate] callback both applications pass to the editor. *)
Definition onUpdate (sectionId newContent : string) : Async unit :=
  setState (updateSection sectionId newContent).

(* ================================================================== *)
(** * A simulated host

    Concrete platform functions and scripted providers, used to run the
    code on explicit inputs. *)
(* ================================================================== *)

Module Sim.

Definition isSpace (c : ascii) : bool :=
  let n := nat_of_ascii c in
  (n =? 32)%nat || (n =? 9)%nat || (n =? 10)%nat || (n =? 13)%nat.

Fixpoint skipWs (s : string) : string :=
  match s with
  | String c r => if isSpace c then skipWs r else s
  | EmptyString => s
  end.

Definition isDigit (c : ascii) : bool :=
  let n := nat_of_ascii c in (48 <=? n)%nat && (n <=? 57)%nat.

Fixpoint readDigits (s : string) (acc : Z) : Z * string :=
  match s with
  | String c r =>
      if isDigit c then readDigits r (acc * 10 + Z.of_nat (nat_of_ascii c - 48)) else (acc, s)
  | EmptyString => (acc, s)
  end.

(** The body of a string literal, after the opening quote. *)
Fixpoint readString (s : string) : option (string * string) :=
  match s with
  | EmptyString => None
  | String c r =>
      if Ascii.eqb c (ascii_of_nat 34) then Some ("", r)
      else if Ascii.eqb c (ascii_of_nat 92) then
        match r with
        | String e r' =>
            let lit := (if Ascii.eqb e "n" then Some (ascii_of_nat 10)
                        else if Ascii.eqb e "t" then Some (ascii_of_nat 9)
                        else if Ascii.eqb e "r" then Some (ascii_of_nat 13)
                        else if Ascii.eqb e (ascii_of_nat 34) then Some e
                        else if Ascii.eqb e (ascii_of_nat 92) then Some e
                        else if Ascii.eqb e "/" then Some e
                        else None)%char in
            match lit, readString r' with
            | Some x, Some (body, rest) => Some (String x body, rest)
            | _, _ => None
            end
        | EmptyString => None
        end
      else if (nat_of_ascii c <? 32)%nat then None
      else match readString r with
           | Some (body, rest) => Some (String c body, rest)
           | None => None
           end
  end.

(** Recursive descent over the JSON grammar (integers for numbers). *)
Fixpoint parseValue (fuel : nat) (s : string) : option (json * string) :=
  match fuel with
  | O => None
  | S fuel' =>
      match skipWs s with
      | EmptyString => None
      | String c r =>
          if Ascii.eqb c "{" then
            match skipWs r with
            | String c' r' =>
                if Ascii.eqb c' "}" then Some (JObj [], r')
                else parseMembers fuel' (skipWs r) []
            | EmptyString => None
            end
          else if Ascii.eqb c "[" then
            match skipWs r with
            | String c' r' =>
                if Ascii.eqb c' "]" then Some (JArr [], r')
                else parseElements fuel' (skipWs r) []
            | EmptyString => None
            end
          else if Ascii.eqb c (ascii_of_nat 34) then
            match readString r with
            | Some (body, rest) => Some (JStr body, rest)
            | None => None
            end
          else if Ascii.eqb c "-" then
            match r with
            | String d _ =>
                if isDigit d then
                  let (n, rest) := readDigits r 0 in Some (JNum (- n), rest)
                else None
            | EmptyString => None
            end
          else if isDigit c then
            let (n, rest) := readDigits (String c r) 0 in Some (JNum n, rest)
          else if String.prefix "true" (String c r) then Some (JBool true, dropStr 4 (String c r))
          else if String.prefix "false" (String c r) then Some (JBool false, dropStr 5 (String c r))
          else if String.prefix "null" (String c r) then Some (JNull, dropStr 4 (String c r))
          else None
      end
  end
with parseElements (fuel : nat) (s : string) (acc : list json) : option (json * string) :=
  match fuel with
  | O => None
  | S fuel' =>
      match parseValue fuel' s with
      | Some (v, r) =>
          match skipWs r with
          | String c r' =>
              if Ascii.eqb c "," then parseElements fuel' r' (v :: acc)
              else if Ascii.eqb c "]" then Some (JArr (rev (v :: acc)), r')
              else None
          | EmptyString => None
          end
      | None => None
      end
  end
with parseMembers (fuel : nat) (s : string) (acc : list (string * json)) : option (json * string) :=
  match fuel with
  | O => None
  | S fuel' =>
      match skipWs s with
      | String q r =>
          if Ascii.eqb q (ascii_of_nat 34) then
            match readString r with
            | Some (key, afterKey) =>
                match skipWs afterKey with
                | String colon afterColon =>
                    if Ascii.eqb colon ":" then
                      match parseValue fuel' afterColon with
                      | Some (v, r') =>
                          match skipWs r' with
                          | String c r'' =>
                              if Ascii.eqb c "," then parseMembers fuel' r'' ((key, v) :: acc)
                              else if Ascii.eqb c "}" then Some (JObj (rev ((key, v) :: acc)), r'')
                              else None
                          | EmptyString => None
                          end
                      | None => None
                      end
                    else None
                | EmptyString => None
                end
            | None => None
            end
          else None
      | EmptyString => None
      end
  end.

Definition syntaxError : JSError := mkError "Unexpected token in JSON".

Definition parseJSON (s : string) : JSError + json :=
  match parseValue (2 * String.length s + 2) s with
  | Some (v, rest) =>
      match skipWs rest with
      | EmptyString => inr v
      | String _ _ => inl syntaxError
      end
  | None => inl syntaxError
  end.

(** The value of a character of the base64 alphabet. *)
Definition sextet (c : ascii) : option N :=
  let n := N_of_ascii c in
  if (65 <=? n)%N && (n <=? 90)%N then Some (n - 65)%N
  else if (97 <=? n)%N && (n <=? 122)%N then Some (n - 71)%N
  else if (48 <=? n)%N && (n <=? 57)%N then Some (n + 4)%N
  else if (n =? 43)%N then Some 62%N
  else if (n =? 47)%N then Some 63%N
  else None.

Fixpoint sextets (s : string) : option (list N) :=
  match s with
  | EmptyString => Some []
  | String c r =>
      match sextet c, sextets r with
      | Some v, Some vs => Some (v :: vs)
      | _, _ => None
      end
  end.

Fixpoint stripPadding (s : string) : string :=
  match s with
  | "=" => ""
  | "==" => ""
  | String c r => String c (stripPadding r)
  | EmptyString => ""
  end.

Fixpoint removeSpaces (s : string) : string :=
  match s with
  | String c r => if isSpace c then removeSpaces r else String c (removeSpaces r)
  | EmptyString => ""
  end.

Fixpoint octets (fuel : nat) (vs : list N) : option string :=
  match fuel with
  | O => None
  | S fuel' =>
      match vs with
      | [] => Some ""
      | [_] => None
      | [a; b] => Some (String (ascii_of_N (a * 4 + b / 16)) "")
      | [a; b; c] =>
          Some (String (ascii_of_N (a * 4 + b / 16))
               (String (ascii_of_N ((b mod 16) * 16 + c / 4)) ""))
      | a :: b :: c :: d :: rest =>
          match octets fuel' rest with
          | Some tail =>
              Some (String (ascii_of_N (a * 4 + b / 16))
                   (String (ascii_of_N ((b mod 16) * 16 + c / 4))
                   (String (ascii_of_N ((c mod 4) * 64 + d)) tail)))
          | None => None
          end
      end
  end.

(** [atob]: [None] stands for the exception it throws on malformed input. *)
Definition base64Decode (s : string) : option string :=
  let t := removeSpaces s in
  let body := if (String.length t mod 4 =? 0)%nat then stripPadding t else t in
  match sextets body with
  | Some vs => octets (S (length vs)) vs
  | None => None
  end.

(** A provider that answers its [n]-th call with the [n]-th entry of a
    script, and with [dflt] once the script is exhausted. *)
Definition callCount (tr : list Event) : nat :=
  length (filter (fun ev => match ev with EvCall _ => true | _ => false end) tr).

Definition scripted (script : list Outcome) (dflt : Outcome)
  : list Event -> Request -> Outcome :=
  fun tr _ => nth (callCount tr) script dflt.

(** A provider whose answer depends on the tier addressed. *)
Definition tiered (pro flash : Outcome) : list Event -> Request -> Outcome :=
  fun _ req => if String.eqb (modelName req) proModel then pro else flash.

Definition quiet : list Event -> ResearchState -> ResearchState :=
  fun _ st => st.

Definition host (prov : list Event -> Request -> Outcome)
           (others : list Event -> ResearchState -> ResearchState) : Host :=
  {| provider := prov;
     interleave := others;
     atob := base64Decode;
     decodeUtf8 := fun bytes => bytes;
     JSON_parse := parseJSON;
     analysisPromptA := "Analyze the provided resources.";
     analysisPromptB := "Analyze the resources for a Q1 Journal Manuscript.";
     summaryPrompt := "Analyze this research document.";
     sectionPromptA := fun journal ttl novelty method kind context =>
       "Write the " ++ kind ++ " section for " ++ journal ++ "." ++ nl ++ context;
     sectionPromptB := fun journal ttl novelty method kind context =>
       "Task: Write " ++ kind ++ " section." ++ nl ++ context |}.

Definition answer (t : string) : Outcome := Resolved {| responseText := Some t |}.
Definition failure (msg : string) : Outcome := Rejected (mkError msg).

Definition world0 : World := {| trace := []; store := initialState |}.

Definition pdfFile (n : string) : UploadedFile :=
  {| name := n; type := "application/pdf"; data := "data:application/pdf;base64,JVBERg==" |}.
Definition textFile (n : string) : UploadedFile :=
  {| name := n; type := "text/plain"; data := "data:text/plain;base64,aGVsbG8=" |}.
Definition imageFile (n : string) : UploadedFile :=
  {| name := n; type := "image/png"; data := "data:image/png;base64,iVBORw==" |}.

Definition ping : Request :=
  {| modelName := flashModel; contents := Prompt "ping"; jsonConfig := false |}.

(** A provider that rejects every call with the same message. *)
Definition alwaysRejects (msg : string) : Host :=
  host (scripted [] (failure msg)) quiet.

(** A session state after an analysis has been committed. *)
Definition analysedState : ResearchState :=
  {| files := [];
     paperTitle := "On Retries";
     researchGap := "Backoff is rarely specified.";
     noveltyClaim := "A verified governor.";
     targetJournal := "JAR";
     methodologyPlan := "Shallow embedding.";
     expectedResults := "All claims settled.";
     qualityChecklist := None;
     extractedReferences := [];
     chatHistory := [];
     isChatOpen := true;
     sections := sections initialState;
     activeSectionId := activeSectionId initialState |}.

Definition question : ChatMessage :=
  {| role := user; text := "Which venue?"; timestamp := 1 |}.

(** Another task of the event loop: while the first provider call is
    pending, the user edits the abstract and sends a chat message. *)
Definition busyUser : list Event -> ResearchState -> ResearchState :=
  fun tr st =>
    if (callCount tr =? 1)%nat
    then appendChat question (updateSection "Abstract" "Edited by hand." st)
    else st.

End Sim.

(* ================================================================== *)
(** * Observations on traces *)
(* ================================================================== *)

Definition delaysOf (tr : list Event) : list Z :=
  flat_map (fun ev => match ev with EvDelay ms => [ms] | _ => [] end) tr.

Definition callsOf (tr : list Event) : list Request :=
  flat_map (fun ev => match ev with EvCall req => [req] | _ => [] end) tr.

(** The waits of the governor when every attempt fails: [delayMs], then
    twice that, and so on, one per retry. *)
Fixpoint backoff (retries : nat) (delayMs : Z) : list Z :=
  match retries with
  | O => []
  | S retries' => delayMs :: backoff retries' (delayMs * 2)
  end.

(** The world after a timer of [ms] milliseconds has been awaited. *)
Definition afterDelay (H : Host) (ms : Z) (w : World) : World :=
  suspend H (emit (EvDelay ms) w).

(** An operation every attempt of which fails with an error the
    classifier [transient] accepts, without any wait of its own. *)
Definition alwaysFails {T} (fn : Async T) (transient : string -> bool) : Prop :=
  forall w, exists error w',
    fn w = (Throw error, w') /\
    transient (errorMsg error) = true /\
    delaysOf (trace w') = delaysOf (trace w).

(* ================================================================== *)
(** * Attachments and condensation: vocabulary *)
(* ================================================================== *)

(** The declared type names PDF. *)
Definition declaredPdf (file : UploadedFile) : bool := includes (type file) "pdf".

(** The file-name suffixes of plain text, markdown and LaTeX sources. *)
Definition textSuffixes : list string := [".txt"; ".md"; ".tex"; ".latex"].

(** Recognised as plain text, markdown or LaTeX: the declared type names
    text, or the file name has one of the suffixes. *)
Definition textLike (file : UploadedFile) : bool :=
  includes (type file) "text" || existsb (endsWith (name file)) textSuffixes.

(** A document of a supported format. *)
Definition supported (file : UploadedFile) : bool := declaredPdf file || textLike file.

(** The events of summarising one document: one call for a document the
    preparer accepts, none otherwise. *)
Definition summaryEvents (H : Host) (file : UploadedFile) : list Event :=
  match VariantB.prepareFilePart H file with
  | Some part => [EvCall (VariantB.summaryRequest H part)]
  | None => []
  end.

(** The events of the map phase: per document, in order, its
    summarisation and then the pause. *)
Definition mapReduceEvents (H : Host) (fs : list UploadedFile) : list Event :=
  flat_map (fun file => summaryEvents H file ++ [EvDelay 500])%list fs.

(** Events of the governor running one request: calls of that request and
    waits. *)
Definition attemptOf (req : Request) (ev : Event) : Prop :=
  match ev with
  | EvCall r => r = req
  | EvDelay _ => True
  | EvAlert _ => False
  end.

(** The events of the analysis phase on [parts]: the governed attempts on
    the preferred tier, starting with a call, then possibly the governed
    attempts on the fallback tier. *)
Definition analysisPhase (H : Host) (parts : list Part) (evs : list Event) : Prop :=
  exists evs1 evs2,
    evs = (EvCall (VariantB.analysisRequest H proModel parts) :: evs1 ++ evs2)%list /\
    Forall (attemptOf (VariantB.analysisRequest H proModel parts)) evs1 /\
    Forall (attemptOf (VariantB.analysisRequest H flashModel parts)) evs2.

(** A request is a summarisation request. *)
Definition isSummaryRequest (H : Host) (req : Request) : Prop :=
  exists part, req = VariantB.summaryRequest H part.

(** One tier of the analysis: the governed call, then the parse. *)
Definition analysisTier (H : Host) (tier : string) (parts : list Part) : Async json :=
  (response <- VariantB.callWithRetry H
                 (generateContent H (VariantB.analysisRequest H tier parts)) 3 2000 ;;
   VariantB.parseOrDefault H response).

(** The two-tier tail of [analyzeFilesForNovelty]. *)
Definition analysisTail (H : Host) (parts : list Part) : Async json :=
  tryCatch (analysisTier H proModel parts)
    (fun error =>
       tryCatch (analysisTier H flashModel parts)
         (fun finalError =>
            throw (mkError ("Analysis failed after retries: " ++
                            interpolate (message finalError))))).

(** The body of the summarisation loop. *)
Definition mapStep (H : Host) (file : UploadedFile) : Async string :=
  (summary <- VariantB.summarizeFile H file ;;
   sleep H 500 ;;;
   ret summary).

(** A response body that is present and not empty. *)
Definition hasText (r : Response) : bool :=
  match responseText r with
  | Some t => truthy t
  | None => false
  end.


(* ================================================================== *)
(** * Drafting commits: vocabulary *)
(* ================================================================== *)

(** How a section may differ after the drafting task of [sectionId] has
    committed [newContent]: identity, kind, title and notes are kept; a
    section with another id is untouched; the drafted section has the new
    content and is no longer generating. *)
Definition sectionCommitted (sectionId newContent : string) (s s' : PaperSection) : Prop :=
  id s' = id s /\ sectionType s' = sectionType s /\ title s' = title s /\
  notes s' = notes s /\
  (id s <> sectionId -> s' = s) /\
  (id s = sectionId -> content s' = newContent /\ isGenerating s' = false).

(** The frame of a drafting commit from [prev] to [next]. *)
Definition onlySectionChanged (sectionId newContent : string)
           (prev next : ResearchState) : Prop :=
  files next = files prev /\
  paperTitle next = paperTitle prev /\
  researchGap next = researchGap prev /\
  noveltyClaim next = noveltyClaim prev /\
  targetJournal next = targetJournal prev /\
  methodologyPlan next = methodologyPlan prev /\
  expectedResults next = expectedResults prev /\
  qualityChecklist next = qualityChecklist prev /\
  extractedReferences next = extractedReferences prev /\
  chatHistory next = chatHistory prev /\
  isChatOpen next = isChatOpen prev /\
  activeSectionId next = activeSectionId prev /\
  Forall2 (sectionCommitted sectionId newContent) (sections prev) (sections next).

(** The updaters the session applies apart from the commit of an analysis:
    manual edits, chat turns, and the two updaters of a drafting task. *)
Inductive draftingUpdate : (ResearchState -> ResearchState) -> Prop :=
| EditSection (sectionId c : string) : draftingUpdate (updateSection sectionId c)
| ChatTurn (msg : ChatMessage) : draftingUpdate (appendChat msg)
| DraftStarted (sectionId : string) : draftingUpdate (markGenerating sectionId)
| DraftCommitted (sectionId c : string) : draftingUpdate (commitDraft sectionId c).

(** The world once [setState(f)] has been applied. *)
Definition afterUpdate (f : ResearchState -> ResearchState) (w : World) : World :=
  {| trace := trace w; store := f (store w) |}.

(* ================================================================== *)
(** * Further vocabulary *)
(* ================================================================== *)

(** Every character of [s] satisfies [p]. *)
Fixpoint allChars (p : ascii -> bool) (s : string) : bool :=
  match s with
  | EmptyString => true
  | String c r => p c && allChars p r
  end.

(** No line terminator starts anywhere in [s]. *)
Fixpoint freeOfLineTerminators (s : string) : bool :=
  match s with
  | EmptyString => true
  | String c r => negb (lineTerminatorAt s) && freeOfLineTerminators r
  end.

(** The string of the given bytes. *)
Definition bytes (ns : list nat) : string :=
  fold_right (fun n acc => String (ascii_of_nat n) acc) EmptyString ns.

(** The UTF-8 encodings of the characters [trim] removes. *)
Definition whiteSpaceChars : list string :=
  map bytes
    [[9]; [10]; [11]; [12]; [13]; [32]; [194; 160]; [225; 154; 128];
     [226; 128; 128]; [226; 128; 129]; [226; 128; 130]; [226; 128; 131];
     [226; 128; 132]; [226; 128; 133]; [226; 128; 134]; [226; 128; 135];
     [226; 128; 136]; [226; 128; 137]; [226; 128; 138];
     [226; 128; 168]; [226; 128; 169]; [226; 128; 175];
     [226; 129; 159]; [227; 128; 128]; [239; 187; 191]].

(** A string made of white space only. *)
Definition blank (s : string) : Prop :=
  exists chars, Forall (fun ch => In ch whiteSpaceChars) chars /\
                s = fold_right append EmptyString chars.

(** The markers of a transient condition, looked for in the lower-cased
    message of an error. *)
Definition transientMarkers : list string :=
  ["429"; "503"; "quota"; "resource exhausted"; "rate limit"].

Definition transient (msg : string) : bool := existsb (includes msg) transientMarkers.

(** Recognised as plain text or markdown: the declared type names text,
    or the file name ends in [.txt] or [.md]. *)
Definition textLikeA (file : UploadedFile) : bool :=
  includes (type file) "text" || existsb (endsWith (name file)) [".txt"; ".md"].

Definition notSemicolon (c : ascii) : bool := negb (Ascii.eqb c ";").

Definition alertsOf (tr : list Event) : list string :=
  flat_map (fun ev => match ev with EvAlert msg => [msg] | _ => [] end) tr.

(** The five text fields and the checklist that an analysis fills. *)
Definition sameManuscript (st st' : ResearchState) : Prop :=
  paperTitle st' = paperTitle st /\
  researchGap st' = researchGap st /\
  noveltyClaim st' = noveltyClaim st /\
  targetJournal st' = targetJournal st /\
  methodologyPlan st' = methodologyPlan st /\
  expectedResults st' = expectedResults st /\
  qualityChecklist st' = qualityChecklist st /\
  extractedReferences st' = extractedReferences st /\
  sections st' = sections st.


(** How a section may differ after an analysis titled [ttl] is committed:
    only the content of a title section changes. *)
Definition sectionRetitled (ttl : string) (s s' : PaperSection) : Prop :=
  id s' = id s /\ sectionType s' = sectionType s /\ title s' = title s /\
  isGenerating s' = isGenerating s /\ notes s' = notes s /\
  (sectionType s <> Title -> s' = s) /\
  (sectionType s = Title -> content s' = "# " ++ ttl).


(* ================================================================== *)
(** * The retry governor *)
(* ================================================================== *)

Section Governor.
Variable H : Host.
Context {T : Type}.
Variable fn : Async T.

Lemma callWithRetryA_unfold (retries : nat) (delayMs : Z) (w : World) :
  VariantA.callWithRetry H fn retries delayMs w =
  match fn w with
  | (Ok a, w') => (Ok a, w')
  | (Throw error, w') =>
      match VariantA.isRetryable (errorMsg error), retries with
      | true, S retries' =>
          VariantA.callWithRetry H fn retries' (delayMs * 2) (afterDelay H delayMs w')
      | _, _ => (Throw error, w')
      end
  end.
Proof.
  destruct retries; simpl; unfold tryCatch;
    destruct (fn w) as [[a | error] w']; try reflexivity;
    destruct (VariantA.isRetryable (errorMsg error)); reflexivity.
Qed.

Lemma callWithRetryB_unfold (retries : nat) (delayMs : Z) (w : World) :
  VariantB.callWithRetry H fn retries delayMs w =
  match fn w with
  | (Ok a, w') => (Ok a, w')
  | (Throw error, w') =>
      match VariantB.isRetryable (errorMsg error), retries with
      | true, S retries' =>
          VariantB.callWithRetry H fn retries' (delayMs * 2) (afterDelay H delayMs w')
      | _, _ => (Throw error, w')
      end
  end.
Proof.
  destruct retries; simpl; unfold tryCatch;
    destruct (fn w) as [[a | error] w']; try reflexivity;
    destruct (VariantB.isRetryable (errorMsg error)); reflexivity.
Qed.

Lemma delaysOf_app (tr1 tr2 : list Event) :
  delaysOf (tr1 ++ tr2) = (delaysOf tr1 ++ delaysOf tr2)%list.
Proof. unfold delaysOf. now rewrite flat_map_app. Qed.

Lemma delaysOf_afterDelay (ms : Z) (w : World) :
  delaysOf (trace (afterDelay H ms w)) = (delaysOf (trace w) ++ [ms])%list.
Proof. unfold afterDelay, suspend, emit; simpl. now rewrite delaysOf_app. Qed.

Lemma scheduleA (retries : nat) :
  alwaysFails fn VariantA.isRetryable ->
  forall (delayMs : Z) (w : World),
  exists error w',
    VariantA.callWithRetry H fn retries delayMs w = (Throw error, w') /\
    delaysOf (trace w') = (delaysOf (trace w) ++ backoff retries delayMs)%list.
Proof.
  intros Hfail. induction retries as [| r IH]; intros delayMs w;
    destruct (Hfail w) as (error & w1 & Hfn & Htr & Hd);
    rewrite callWithRetryA_unfold, Hfn, Htr.
  - exists error, w1. split; [reflexivity |]. simpl. now rewrite app_nil_r.
  - destruct (IH (delayMs * 2)%Z (afterDelay H delayMs w1)) as (e' & w' & Hrun & Hds).
    exists e', w'. split; [exact Hrun |].
    rewrite Hds, delaysOf_afterDelay, Hd, <- app_assoc. reflexivity.
Qed.

Lemma scheduleB (retries : nat) :
  alwaysFails fn VariantB.isRetryable ->
  forall (delayMs : Z) (w : World),
  exists error w',
    VariantB.callWithRetry H fn retries delayMs w = (Throw error, w') /\
    delaysOf (trace w') = (delaysOf (trace w) ++ backoff retries delayMs)%list.
Proof.
  intros Hfail. induction retries as [| r IH]; intros delayMs w;
    destruct (Hfail w) as (error & w1 & Hfn & Htr & Hd);
    rewrite callWithRetryB_unfold, Hfn, Htr.
  - exists error, w1. split; [reflexivity |]. simpl. now rewrite app_nil_r.
  - destruct (IH (delayMs * 2)%Z (afterDelay H delayMs w1)) as (e' & w' & Hrun & Hds).
    exists e', w'. split; [exact Hrun |].
    rewrite Hds, delaysOf_afterDelay, Hd, <- app_assoc. reflexivity.
Qed.

End Governor.

(** The transient conditions of the specification are the classifier of
    the first variant. *)
Lemma transient_first_variant (msg : string) :
  transient msg = VariantA.isRetryable msg.
Proof.
  unfold transient, transientMarkers, VariantA.isRetryable. cbn [existsb].
  destruct (includes msg "429"), (includes msg "503"), (includes msg "quota"),
    (includes msg "resource exhausted"), (includes msg "rate limit"); reflexivity.
Qed.

Lemma transient_second_variant (msg : string) :
  transient msg = VariantB.isRetryable msg || includes msg "rate limit".
Proof. rewrite transient_first_variant. reflexivity. Qed.

Lemma alwaysRejects_fails (msg : string) (req : Request) (w : World) :
  generateContent (Sim.alwaysRejects msg) req w =
  (Throw (mkError msg), suspend (Sim.alwaysRejects msg) (emit (EvCall req) w)).
Proof.
  unfold generateContent, Sim.alwaysRejects, Sim.host, Sim.scripted; simpl.
  destruct (Sim.callCount (trace w)); reflexivity.
Qed.

(** C3, where the code departs from it.  Transient means what the
    specification lists: a lowercased message containing 429, 503, quota,
    resource exhausted or rate limit ([transient]).  A failure that is not
    transient is rethrown by both variants of [callWithRetry] in the world
    left by the first attempt, with no wait; with no retries left every
    failure is rethrown.  The first variant treats every transient failure
    as the claim says: with retries left it waits [delayMs] and recurses
    with one retry less and twice the delay, so that with 3 retries and
    2000 ms it waits 2000, 4000 and 8000 ms.  The second variant does so
    only for the failures its own classifier accepts; a transient failure
    that its classifier refuses is rethrown at once, whatever the retries
    left: rejected with "Rate limit exceeded", it makes one attempt and
    waits for nothing. *)
Theorem callWithRetry_backoff_policy :
  (forall (H : Host) (T : Type) (fn : Async T),
    (forall (w w1 : World) (error : JSError) (retries : nat) (delayMs : Z),
        fn w = (Throw error, w1) ->
        ((transient (errorMsg error) = false ->
          VariantA.callWithRetry H fn retries delayMs w = (Throw error, w1)) /\
         (transient (errorMsg error) = true ->
          VariantA.callWithRetry H fn (S retries) delayMs w =
          VariantA.callWithRetry H fn retries (delayMs * 2) (afterDelay H delayMs w1)) /\
         VariantA.callWithRetry H fn 0 delayMs w = (Throw error, w1)) /\
        ((transient (errorMsg error) = false ->
          VariantB.callWithRetry H fn retries delayMs w = (Throw error, w1)) /\
         (VariantB.isRetryable (errorMsg error) = true ->
          transient (errorMsg error) = true /\
          VariantB.callWithRetry H fn (S retries) delayMs w =
          VariantB.callWithRetry H fn retries (delayMs * 2) (afterDelay H delayMs w1)) /\
         VariantB.callWithRetry H fn 0 delayMs w = (Throw error, w1) /\
         (transient (errorMsg error) = true ->
          VariantB.isRetryable (errorMsg error) = false ->
          includes (errorMsg error) "rate limit" = true /\
          VariantB.callWithRetry H fn retries delayMs w = (Throw error, w1)))) /\
    (alwaysFails fn transient ->
     forall w, exists error w',
       VariantA.callWithRetry H fn 3 2000 w = (Throw error, w') /\
       delaysOf (trace w') = (delaysOf (trace w) ++ [2000; 4000; 8000])%list%Z) /\
    (alwaysFails fn VariantB.isRetryable ->
     forall w, exists error w',
       VariantB.callWithRetry H fn 3 2000 w = (Throw error, w') /\
       delaysOf (trace w') = (delaysOf (trace w) ++ [2000; 4000; 8000])%list%Z)) /\
  (let H := Sim.alwaysRejects "Rate limit exceeded" in
   transient (errorMsg (mkError "Rate limit exceeded")) = true /\
   VariantB.callWithRetry H (generateContent H Sim.ping) 3 2000 Sim.world0 =
     (Throw (mkError "Rate limit exceeded"),
      {| trace := [EvCall Sim.ping]; store := initialState |}) /\
   delaysOf (trace (snd (VariantB.callWithRetry H (generateContent H Sim.ping)
                           3 2000 Sim.world0))) = []).
Proof.
  split; [| repeat split; vm_compute; reflexivity].
  intros H T fn. split; [| split].
  - intros w w1 error retries delayMs Hfn. split; [split; [| split] | split; [| split; [| split]]].
    + intros Hn. rewrite transient_first_variant in Hn.
      rewrite callWithRetryA_unfold, Hfn, Hn. reflexivity.
    + intros Hy. rewrite transient_first_variant in Hy.
      rewrite callWithRetryA_unfold, Hfn, Hy. reflexivity.
    + rewrite callWithRetryA_unfold, Hfn.
      destruct (VariantA.isRetryable (errorMsg error)); reflexivity.
    + intros Hn. rewrite transient_second_variant in Hn.
      apply orb_false_iff in Hn as [Hn _].
      rewrite callWithRetryB_unfold, Hfn, Hn. reflexivity.
    + intros Hy. split; [rewrite transient_second_variant, Hy; reflexivity |].
      rewrite callWithRetryB_unfold, Hfn, Hy. reflexivity.
    + rewrite callWithRetryB_unfold, Hfn.
      destruct (VariantB.isRetryable (errorMsg error)); reflexivity.
    + intros Hy Hn. rewrite transient_second_variant, Hn in Hy.
      split; [exact Hy |].
      rewrite callWithRetryB_unfold, Hfn, Hn. reflexivity.
  - intros Hfail w.
    assert (HfailA : alwaysFails fn VariantA.isRetryable).
    { intros w0. destruct (Hfail w0) as (error & w' & Hfn & Ht & Hd).
      exists error, w'. rewrite <- transient_first_variant. auto. }
    exact (scheduleA H fn 3 HfailA 2000%Z w).
  - intros Hfail w. exact (scheduleB H fn 3 Hfail 2000%Z w).
Qed.

Lemma callWithRetry_backoff_policy_witness :
  let H := Sim.alwaysRejects "503 Service Unavailable" in
  let fn := generateContent H Sim.ping in
  (VariantA.callWithRetry H fn 1 2000 Sim.world0 =
   VariantA.callWithRetry H fn 0 4000
     (afterDelay H 2000 (suspend H (emit (EvCall Sim.ping) Sim.world0)))) /\
  (VariantB.callWithRetry H fn 0 2000 Sim.world0 =
   (Throw (mkError "503 Service Unavailable"), suspend H (emit (EvCall Sim.ping) Sim.world0))) /\
  (exists error w',
     VariantA.callWithRetry H fn 3 2000 Sim.world0 = (Throw error, w') /\
     delaysOf (trace w') = [2000; 4000; 8000]%Z) /\
  (exists error w',
     VariantB.callWithRetry H fn 3 2000 Sim.world0 = (Throw error, w') /\
     delaysOf (trace w') = [2000; 4000; 8000]%Z) /\
  (let H' := Sim.alwaysRejects "Rate limit exceeded" in
   VariantB.callWithRetry H' (generateContent H' Sim.ping) 3 2000 Sim.world0 =
   (Throw (mkError "Rate limit exceeded"),
    suspend H' (emit (EvCall Sim.ping) Sim.world0))) /\
  (let H' := Sim.alwaysRejects "connection reset" in
   VariantA.callWithRetry H' (generateContent H' Sim.ping) 3 2000 Sim.world0 =
   (Throw (mkError "connection reset"),
    suspend H' (emit (EvCall Sim.ping) Sim.world0))).
Proof.
  intros H fn.
  destruct (proj1 callWithRetry_backoff_policy H Response fn) as (Hstep & HschedA & HschedB).
  destruct (Hstep Sim.world0 (suspend H (emit (EvCall Sim.ping) Sim.world0))
              (mkError "503 Service Unavailable") 0 2000%Z
              (alwaysRejects_fails _ _ _)) as ((_ & HretryA & _) & (_ & _ & HlastB & _)).
  split; [apply HretryA; vm_compute; reflexivity |].
  split; [exact HlastB |].
  split; [| split; [| split]].
  - apply (HschedA (fun w => ex_intro _ (mkError "503 Service Unavailable")
                   (ex_intro _ (suspend H (emit (EvCall Sim.ping) w))
                      (conj (alwaysRejects_fails _ _ w)
                         (conj eq_refl
                            (eq_trans (delaysOf_app (trace w) [EvCall Sim.ping])
                                      (app_nil_r _)))))) Sim.world0).
  - apply (HschedB (fun w => ex_intro _ (mkError "503 Service Unavailable")
                   (ex_intro _ (suspend H (emit (EvCall Sim.ping) w))
                      (conj (alwaysRejects_fails _ _ w)
                         (conj eq_refl
                            (eq_trans (delaysOf_app (trace w) [EvCall Sim.ping])
                                      (app_nil_r _)))))) Sim.world0).
  - intros H'.
    apply (proj2 (proj2 (proj2 (proj2
             (proj1 (proj1 callWithRetry_backoff_policy H' Response
                       (generateContent H' Sim.ping))
                Sim.world0 _ (mkError "Rate limit exceeded") 3 2000%Z
                (alwaysRejects_fails _ _ _)))))); vm_compute; reflexivity.
  - intros H'.
    apply (proj1 (proj1
             (proj1 (proj1 callWithRetry_backoff_policy H' Response
                       (generateContent H' Sim.ping))
                Sim.world0 _ (mkError "connection reset") 3 2000%Z
                (alwaysRejects_fails _ _ _)))); vm_compute; reflexivity.
Defined.

(** The four markers the two classifiers share. *)
Lemma shared_markers_transient (msg marker : string) :
  In marker ["429"; "503"; "quota"; "resource exhausted"] ->
  includes msg marker = true ->
  VariantA.isRetryable msg = true /\ VariantB.isRetryable msg = true.
Proof.
  unfold VariantA.isRetryable, VariantB.isRetryable.
  intros [<- | [<- | [<- | [<- | []]]]] ->; rewrite ?orb_true_r; simpl; split; reflexivity.
Qed.

(** C2. The classifier of the second variant has no ["rate limit"] marker:
    it is the classifier of the first variant without that disjunct.  An
    operation rejected with "Rate limit exceeded" is propagated by the second
    variant after one attempt and no wait, where the first variant retries
    three times, waiting 2000, 4000 and 8000 ms. *)
Theorem rate_limit_marker_missing_in_second_variant :
  (forall msg, VariantA.isRetryable msg = VariantB.isRetryable msg || includes msg "rate limit") /\
  VariantB.isRetryable (errorMsg (mkError "Rate limit exceeded")) = false /\
  VariantA.isRetryable (errorMsg (mkError "Rate limit exceeded")) = true /\
  (let H := Sim.alwaysRejects "Rate limit exceeded" in
   VariantB.callWithRetry H (generateContent H Sim.ping) 3 2000 Sim.world0 =
     (Throw (mkError "Rate limit exceeded"),
      {| trace := [EvCall Sim.ping]; store := initialState |}) /\
   VariantA.callWithRetry H (generateContent H Sim.ping) 3 2000 Sim.world0 =
     (Throw (mkError "Rate limit exceeded"),
      {| trace := [EvCall Sim.ping; EvDelay 2000; EvCall Sim.ping; EvDelay 4000;
                   EvCall Sim.ping; EvDelay 8000; EvCall Sim.ping];
         store := initialState |})).
Proof.
  split; [intros msg; reflexivity |].
  repeat split; vm_compute; reflexivity.
Qed.

(* ================================================================== *)
(** * Traces of the service *)
(* ================================================================== *)

Section Traces.
Variable H : Host.

Lemma generateContent_trace (req : Request) (w : World) :
  trace (snd (generateContent H req w)) = (trace w ++ [EvCall req])%list.
Proof.
  unfold generateContent. destruct (provider H (trace w) req); reflexivity.
Qed.

Lemma callWithRetryB_trace (req : Request) (retries : nat) :
  forall (delayMs : Z) (w : World),
  exists evs,
    trace (snd (VariantB.callWithRetry H (generateContent H req) retries delayMs w)) =
      (trace w ++ EvCall req :: evs)%list /\
    Forall (attemptOf req) evs.
Proof.
  induction retries as [| r IH]; intros delayMs w;
    rewrite callWithRetryB_unfold;
    pose proof (generateContent_trace req w) as Hg;
    destruct (generateContent H req w) as [[a | error] w1]; simpl in Hg.
  - exists []. split; [exact Hg | constructor].
  - exists []. destruct (VariantB.isRetryable (errorMsg error)); split;
      try exact Hg; constructor.
  - exists []. split; [exact Hg | constructor].
  - destruct (VariantB.isRetryable (errorMsg error)).
    + destruct (IH (delayMs * 2)%Z (afterDelay H delayMs w1)) as (evs & Htr & Hall).
      exists (EvDelay delayMs :: EvCall req :: evs)%list. split.
      * rewrite Htr. unfold afterDelay, suspend, emit; simpl.
        rewrite Hg, <- !app_assoc. reflexivity.
      * constructor; [exact I |]. constructor; [reflexivity | exact Hall].
    + exists []. split; [exact Hg | constructor].
Qed.

Lemma parseOrDefault_world (response : Response) (w : World) :
  snd (VariantB.parseOrDefault H response w) = w.
Proof.
  unfold VariantB.parseOrDefault.
  destruct (JSON_parse H _); reflexivity.
Qed.

Lemma analysisTier_trace (tier : string) (parts : list Part) (w : World) :
  exists evs,
    trace (snd (analysisTier H tier parts w)) =
      (trace w ++ EvCall (VariantB.analysisRequest H tier parts) :: evs)%list /\
    Forall (attemptOf (VariantB.analysisRequest H tier parts)) evs.
Proof.
  destruct (callWithRetryB_trace (VariantB.analysisRequest H tier parts) 3 2000%Z w)
    as (evs & Htr & Hall).
  exists evs. split; [| exact Hall].
  unfold analysisTier, bind.
  destruct (VariantB.callWithRetry H _ 3 2000%Z w) as [[response | e] w1]; simpl in *.
  - pose proof (parseOrDefault_world response w1) as Hp.
    destruct (VariantB.parseOrDefault H response w1) as [r w2]; simpl in *.
    subst w2. exact Htr.
  - exact Htr.
Qed.

Lemma analyze_condense_tail (fs : list UploadedFile) (w : World) :
  VariantB.analyzeFilesForNovelty H fs w =
  match VariantB.condense H fs w with
  | (Ok parts, w1) => analysisTail H parts w1
  | (Throw e, w1) => (Throw e, w1)
  end.
Proof. reflexivity. Qed.

Lemma analysisTail_trace (parts : list Part) (w : World) :
  exists evs,
    trace (snd (analysisTail H parts w)) = (trace w ++ evs)%list /\
    analysisPhase H parts evs.
Proof.
  destruct (analysisTier_trace proModel parts w) as (evs1 & Htr1 & Hall1).
  unfold analysisTail, tryCatch.
  destruct (analysisTier H proModel parts w) as [[j | e] w1]; simpl in Htr1.
  - exists (EvCall (VariantB.analysisRequest H proModel parts) :: evs1)%list.
    split; [exact Htr1 |].
    exists evs1, []. rewrite app_nil_r. repeat split; [exact Hall1 | constructor].
  - destruct (analysisTier_trace flashModel parts w1) as (evs2 & Htr2 & Hall2).
    exists (EvCall (VariantB.analysisRequest H proModel parts) :: evs1 ++
            EvCall (VariantB.analysisRequest H flashModel parts) :: evs2)%list.
    split.
    + destruct (analysisTier H flashModel parts w1) as [[j | e2] w2]; simpl in *;
        rewrite Htr2, Htr1, <- app_assoc; reflexivity.
    + exists evs1, (EvCall (VariantB.analysisRequest H flashModel parts) :: evs2)%list.
      repeat split; [exact Hall1 |].
      constructor; [reflexivity | exact Hall2].
Qed.

End Traces.

Section Condensation.
Variable H : Host.

Lemma prepareFilePart_cases (file : UploadedFile) :
  VariantB.prepareFilePart H file =
  if declaredPdf file then
    Some (InlineData "application/pdf" (cleanBase64 (data file)))
  else if textLike file then
    Some (TextPart ("[Source Document: " ++ name file ++ "]" ++ nl ++
                    decodeBase64Text H (cleanBase64 (data file)) ++ nl ++ "---"))
  else None.
Proof.
  unfold VariantB.prepareFilePart, declaredPdf, textLike, textSuffixes; simpl.
  destruct (includes (type file) "pdf"); [reflexivity |].
  destruct (includes (type file) "text"), (endsWith (name file) ".txt"),
    (endsWith (name file) ".md"), (endsWith (name file) ".tex"),
    (endsWith (name file) ".latex"); reflexivity.
Qed.

Lemma prepareFilePart_supported (file : UploadedFile) :
  match VariantB.prepareFilePart H file with Some _ => true | None => false end =
  supported file.
Proof.
  rewrite prepareFilePart_cases. unfold supported.
  destruct (declaredPdf file); [reflexivity |].
  destruct (textLike file); reflexivity.
Qed.

Lemma mapNonNull_length_le {A B} (f : A -> option B) (xs : list A) :
  length (mapNonNull f xs) <= length xs.
Proof.
  induction xs as [| x rest IH]; simpl; [lia |].
  destruct (f x); simpl; lia.
Qed.

Lemma directParts_count (fs : list UploadedFile) :
  length (mapNonNull (VariantB.prepareFilePart H) fs) = length (filter supported fs).
Proof.
  induction fs as [| f rest IH]; simpl; [reflexivity |].
  rewrite <- (prepareFilePart_supported f).
  destruct (VariantB.prepareFilePart H f); simpl; now rewrite IH.
Qed.

Lemma callsOf_app (tr1 tr2 : list Event) :
  callsOf (tr1 ++ tr2) = (callsOf tr1 ++ callsOf tr2)%list.
Proof. unfold callsOf. now rewrite flat_map_app. Qed.

Lemma attempts_calls (req : Request) (evs : list Event) :
  Forall (attemptOf req) evs -> forall r, In r (callsOf evs) -> r = req.
Proof.
  induction 1 as [| ev evs Hev _ IH]; simpl; intros r Hin; [contradiction |].
  destruct ev as [r' | ms | msg]; simpl in *.
  - destruct Hin as [<- | Hin]; [exact Hev | now apply IH].
  - now apply IH.
  - contradiction.
Qed.

(** Every call of the analysis phase is an analysis request on [parts],
    addressed to one of the two tiers. *)
Lemma analysisPhase_calls (parts : list Part) (evs : list Event) :
  analysisPhase H parts evs ->
  forall r, In r (callsOf evs) ->
    r = VariantB.analysisRequest H proModel parts \/
    r = VariantB.analysisRequest H flashModel parts.
Proof.
  intros (evs1 & evs2 & -> & H1 & H2) r Hin.
  simpl in Hin. destruct Hin as [<- | Hin]; [now left |].
  rewrite callsOf_app in Hin. apply in_app_or in Hin as [Hin | Hin].
  - left. eapply attempts_calls; eauto.
  - right. eapply attempts_calls; eauto.
Qed.

Lemma analysisRequest_not_summary (tier : string) (parts : list Part) :
  ~ isSummaryRequest H (VariantB.analysisRequest H tier parts).
Proof. intros (part & Heq). discriminate (f_equal jsonConfig Heq). Qed.

Lemma summarizeFile_run (file : UploadedFile) (w : World) :
  exists summary w',
    VariantB.summarizeFile H file w = (Ok summary, w') /\
    trace w' = (trace w ++ summaryEvents H file)%list.
Proof.
  unfold VariantB.summarizeFile, summaryEvents.
  destruct (VariantB.prepareFilePart H file) as [part |].
  - unfold tryCatch, bind.
    pose proof (generateContent_trace H (VariantB.summaryRequest H part) w) as Hg.
    destruct (generateContent H (VariantB.summaryRequest H part) w) as [[r | e] w1];
      simpl in Hg; eexists _, w1; split; (reflexivity || exact Hg).
  - exists "", w. split; [reflexivity |]. now rewrite app_nil_r.
Qed.

Lemma mapStep_run (file : UploadedFile) (w : World) :
  exists summary w1,
    mapStep H file w = (Ok summary, afterDelay H 500 w1) /\
    trace w1 = (trace w ++ summaryEvents H file)%list.
Proof.
  destruct (summarizeFile_run file w) as (s & w1 & Hs & Htr).
  exists s, w1. split; [| exact Htr].
  unfold mapStep, bind. rewrite Hs. reflexivity.
Qed.

Lemma mapPhase_run (fs : list UploadedFile) :
  forall w, exists summaries w',
    forEach (mapStep H) fs w = (Ok summaries, w') /\
    trace w' = (trace w ++ mapReduceEvents H fs)%list /\
    length summaries = length fs.
Proof.
  induction fs as [| f rest IH]; intros w; simpl.
  - exists [], w. repeat split. now rewrite app_nil_r.
  - destruct (mapStep_run f w) as (s & w1 & Hs & Htr1).
    destruct (IH (afterDelay H 500 w1)) as (ss & w2 & Hrest & Htr2 & Hlen).
    exists (s :: ss), w2. unfold bind. rewrite Hs, Hrest. repeat split.
    + rewrite Htr2. unfold afterDelay, suspend, emit; simpl.
      rewrite Htr1, <- !app_assoc. reflexivity.
    + simpl. now rewrite Hlen.
Qed.

Lemma condense_mapReduce (fs : list UploadedFile) (w : World) :
  2 < length fs ->
  exists summaries w',
    VariantB.condense H fs w =
      (Ok [TextPart ("Here are summaries of the provided source materials:" ++ nl ++
                     join nl summaries)], w') /\
    trace w' = (trace w ++ mapReduceEvents H fs)%list /\
    length summaries = length fs.
Proof.
  intros Hlen. destruct (mapPhase_run fs w) as (ss & w' & Hrun & Htr & Hl).
  exists ss, w'. split; [| split; assumption].
  unfold VariantB.condense.
  destruct (Nat.ltb_spec 2 (length fs)) as [_ | Hle]; [| lia].
  unfold bind. change (forEach _ fs w) with (forEach (mapStep H) fs w).
  rewrite Hrun. reflexivity.
Qed.

Lemma condense_direct (fs : list UploadedFile) (w : World) :
  length fs <= 2 ->
  VariantB.condense H fs w = (Ok (mapNonNull (VariantB.prepareFilePart H) fs), w).
Proof.
  intros Hlen. unfold VariantB.condense.
  destruct (Nat.ltb_spec 2 (length fs)) as [Hlt | _]; [lia | reflexivity].
Qed.

Lemma mapReduce_calls (fs : list UploadedFile) :
  callsOf (mapReduceEvents H fs) =
  map (VariantB.summaryRequest H) (mapNonNull (VariantB.prepareFilePart H) fs).
Proof.
  induction fs as [| f rest IH]; simpl; [reflexivity |].
  rewrite !callsOf_app, IH. unfold summaryEvents.
  destruct (VariantB.prepareFilePart H f); reflexivity.
Qed.

Lemma mapReduce_delays (fs : list UploadedFile) :
  delaysOf (mapReduceEvents H fs) = repeat 500%Z (length fs).
Proof.
  induction fs as [| f rest IH]; simpl; [reflexivity |].
  rewrite !delaysOf_app, IH. unfold summaryEvents.
  destruct (VariantB.prepareFilePart H f); reflexivity.
Qed.

End Condensation.

Lemma prepareFileParts_cons (H : Host) (f : UploadedFile) (fs : list UploadedFile) :
  VariantA.prepareFileParts H (f :: fs) =
  (VariantA.prepareFileParts H [f] ++ VariantA.prepareFileParts H fs)%list.
Proof.
  unfold VariantA.prepareFileParts. simpl.
  destruct (includes (type f) "pdf"); [reflexivity |].
  destruct (includes (type f) "text" || endsWith (name f) ".txt" || endsWith (name f) ".md");
    reflexivity.
Qed.

(** The list-level preparer of the first variant treats a document as
    [prepareFilePart] does, unless the document is text-like by a LaTeX
    suffix alone: the first variant has no LaTeX suffixes. *)
Lemma prepareFileParts_agrees (H : Host) (file : UploadedFile) :
  endsWith (name file) ".tex" || endsWith (name file) ".latex" = false ->
  VariantA.prepareFileParts H [file] = mapNonNull (VariantB.prepareFilePart H) [file].
Proof.
  intros Hno. apply orb_false_iff in Hno as [Htex Hlatex].
  unfold VariantA.prepareFileParts, VariantB.prepareFilePart; simpl.
  rewrite Htex, Hlatex, !orb_false_r. reflexivity.
Qed.

(** C6, as the code has it.  The attachment preparer returns, for a
    document whose declared type names PDF, a binary part with the PDF media
    type; for a document recognised as text by declared type or by file-name
    suffix, a text part made of the decoded content after a delimiter line
    naming the document and before a separator line; and no part for any
    other document.  The second variant, [prepareFilePart], recognises
    plain text, markdown and LaTeX; the first variant, inside
    [prepareFileParts], recognises plain text and markdown only.  The lists
    are built document by document, in order, and are never longer than
    their input. *)
Theorem prepareFilePart_by_format :
  forall (H : Host) (file : UploadedFile),
    (declaredPdf file = true ->
     VariantB.prepareFilePart H file =
       Some (InlineData "application/pdf" (cleanBase64 (data file)))) /\
    (declaredPdf file = false -> textLike file = true ->
     VariantB.prepareFilePart H file =
       Some (TextPart ("[Source Document: " ++ name file ++ "]" ++ nl ++
                       decodeBase64Text H (cleanBase64 (data file)) ++
                       nl ++ "---"))) /\
    (supported file = false -> VariantB.prepareFilePart H file = None) /\
    (forall fs,
        length (mapNonNull (VariantB.prepareFilePart H) fs) <= length fs /\
        length (VariantB.filesToPartsLimited H fs) <= length fs /\
        length (VariantA.prepareFileParts H fs) <= length fs) /\
    (declaredPdf file = true ->
     VariantA.prepareFileParts H [file] =
       [InlineData "application/pdf" (cleanBase64 (data file))]) /\
    (declaredPdf file = false -> textLikeA file = true ->
     VariantA.prepareFileParts H [file] =
       [TextPart ("[Source Document: " ++ name file ++ "]" ++ nl ++
                  decodeBase64Text H (cleanBase64 (data file)) ++
                  nl ++ "---")]) /\
    (declaredPdf file = false -> textLikeA file = false ->
     VariantA.prepareFileParts H [file] = []) /\
    (forall fs,
        VariantA.prepareFileParts H (file :: fs) =
          (VariantA.prepareFileParts H [file] ++ VariantA.prepareFileParts H fs)%list).
Proof.
  intros H file. rewrite prepareFilePart_cases.
  assert (HA : VariantA.prepareFileParts H [file] =
               if declaredPdf file then
                 [InlineData "application/pdf" (cleanBase64 (data file))]
               else if textLikeA file then
                 [TextPart ("[Source Document: " ++ name file ++ "]" ++ nl ++
                            decodeBase64Text H (cleanBase64 (data file)) ++ nl ++ "---")]
               else []).
  { unfold VariantA.prepareFileParts, declaredPdf, textLikeA. cbn [mapNonNull existsb].
    destruct (includes (type file) "pdf"); [reflexivity |].
    destruct (includes (type file) "text"), (endsWith (name file) ".txt"),
      (endsWith (name file) ".md"); reflexivity. }
  rewrite HA. repeat split.
  - intros ->. reflexivity.
  - intros -> ->. reflexivity.
  - unfold supported. intros Hs. apply orb_false_iff in Hs as [-> ->]. reflexivity.
  - apply mapNonNull_length_le.
  - unfold VariantB.filesToPartsLimited.
    etransitivity; [apply mapNonNull_length_le |]. rewrite length_firstn. lia.
  - apply mapNonNull_length_le.
  - intros ->. reflexivity.
  - intros -> ->. reflexivity.
  - intros -> ->. reflexivity.
  - intros fs. rewrite prepareFileParts_cons, HA. reflexivity.
Qed.

Lemma prepareFilePart_by_format_witness :
  let H := Sim.host (Sim.scripted [] (Sim.answer "ok")) Sim.quiet in
  VariantB.prepareFilePart H (Sim.pdfFile "paper.pdf") =
    Some (InlineData "application/pdf" "JVBERg==") /\
  VariantB.prepareFilePart H
    {| name := "proof.tex"; type := "application/x-tex";
       data := "data:application/x-tex;base64,aGVsbG8=" |} =
    Some (TextPart ("[Source Document: proof.tex]" ++ nl ++ "hello" ++ nl ++ "---")) /\
  VariantB.prepareFilePart H (Sim.imageFile "figure.png") = None /\
  VariantA.prepareFileParts H [Sim.pdfFile "paper.pdf"] =
    [InlineData "application/pdf" "JVBERg=="] /\
  VariantA.prepareFileParts H
    [{| name := "notes.md"; type := "";
        data := "data:application/octet-stream;base64,aGVsbG8=" |}] =
    [TextPart ("[Source Document: notes.md]" ++ nl ++ "hello" ++ nl ++ "---")] /\
  VariantA.prepareFileParts H [Sim.imageFile "figure.png"] = [].
Proof.
  intros H.
  split; [| split; [| split; [| split; [| split]]]].
  - apply (proj1 (prepareFilePart_by_format H (Sim.pdfFile "paper.pdf"))).
    vm_compute; reflexivity.
  - apply (proj1 (proj2 (prepareFilePart_by_format H
             {| name := "proof.tex"; type := "application/x-tex";
                data := "data:application/x-tex;base64,aGVsbG8=" |})));
      vm_compute; reflexivity.
  - apply (proj1 (proj2 (proj2 (prepareFilePart_by_format H (Sim.imageFile "figure.png"))))).
    vm_compute; reflexivity.
  - apply (proj1 (proj2 (proj2 (proj2 (proj2
             (prepareFilePart_by_format H (Sim.pdfFile "paper.pdf"))))))).
    vm_compute; reflexivity.
  - apply (proj1 (proj2 (proj2 (proj2 (proj2 (proj2
             (prepareFilePart_by_format H
                {| name := "notes.md"; type := "";
                   data := "data:application/octet-stream;base64,aGVsbG8=" |})))))));
      vm_compute; reflexivity.
  - apply (proj1 (proj2 (proj2 (proj2 (proj2 (proj2 (proj2
             (prepareFilePart_by_format H (Sim.imageFile "figure.png")))))))));
      vm_compute; reflexivity.
Defined.

(** C6, as stated, fails for the first variant: a LaTeX source recognised
    by its file-name suffix alone gets no part from [prepareFileParts],
    which has no LaTeX suffix, where the claim promises a text part (and
    [prepareFilePart] gives one). *)
Lemma latex_suffix_ignored_by_first_variant :
  let H := Sim.host (Sim.scripted [] (Sim.answer "ok")) Sim.quiet in
  let file := {| name := "proof.tex"; type := "application/x-tex";
                 data := "data:application/x-tex;base64,aGVsbG8=" |} in
  declaredPdf file = false /\
  textLike file = true /\
  VariantA.prepareFileParts H [file] = [] /\
  VariantB.prepareFilePart H file =
    Some (TextPart ("[Source Document: proof.tex]" ++ nl ++ "hello" ++ nl ++ "---")).
Proof. intros H file. repeat split; vm_compute; reflexivity. Qed.

(** C4. With at most two documents the analysis runs in direct-inclusion
    mode: the condensation makes no call and no pause, the document parts
    are one per document of a supported format, and every call of the run is
    an analysis request carrying exactly those parts followed by the prompt;
    none is a summarisation request. *)
Theorem direct_inclusion_small_sets :
  forall (H : Host) (fs : list UploadedFile) (w : World),
    length fs <= 2 ->
    let parts := mapNonNull (VariantB.prepareFilePart H) fs in
    VariantB.condense H fs w = (Ok parts, w) /\
    length parts = length (filter supported fs) /\
    exists evs,
      trace (snd (VariantB.analyzeFilesForNovelty H fs w)) = (trace w ++ evs)%list /\
      analysisPhase H parts evs /\
      (forall r, In r (callsOf evs) ->
         ~ isSummaryRequest H r /\
         contents r = Parts (parts ++ [TextPart (analysisPromptB H)])%list /\
         jsonConfig r = true).
Proof.
  intros H fs w Hlen parts.
  split; [now apply condense_direct |].
  split; [apply directParts_count |].
  rewrite analyze_condense_tail, condense_direct by exact Hlen.
  destruct (analysisTail_trace H parts w) as (evs & Htr & Hphase).
  exists evs. split; [exact Htr |]. split; [exact Hphase |].
  intros r Hin.
  destruct (analysisPhase_calls H parts evs Hphase r Hin) as [-> | ->];
    (split; [apply analysisRequest_not_summary | split; reflexivity]).
Qed.

Lemma direct_inclusion_small_sets_witness :
  let H := Sim.host (Sim.scripted [] (Sim.answer "{}")) Sim.quiet in
  let fs := [Sim.pdfFile "paper.pdf"; Sim.imageFile "figure.png"] in
  length (mapNonNull (VariantB.prepareFilePart H) fs) = 1 /\
  VariantB.condense H fs Sim.world0 =
    (Ok [InlineData "application/pdf" "JVBERg=="], Sim.world0).
Proof.
  intros H fs.
  destruct (direct_inclusion_small_sets H fs Sim.world0) as (Hc & Hn & _).
  - vm_compute. lia.
  - split; [exact Hn | exact Hc].
Defined.

(** C5, as the code has it.  With more than two documents the analysis runs
    in map-reduce mode: the documents are visited once each, in order; a
    document the preparer accepts gets exactly one summarisation call, a
    document of an unsupported format gets none; each visit ends with a
    500 ms pause before the next begins; and only after the last pause comes
    the analysis phase, whose single document part is the combined block of
    the summaries, one per document. *)
Theorem map_reduce_large_sets :
  forall (H : Host) (fs : list UploadedFile) (w : World),
    2 < length fs ->
    exists summaries evs,
      trace (snd (VariantB.analyzeFilesForNovelty H fs w)) =
        (trace w ++ mapReduceEvents H fs ++ evs)%list /\
      length summaries = length fs /\
      analysisPhase H
        [TextPart ("Here are summaries of the provided source materials:" ++ nl ++
                   join nl summaries)] evs /\
      callsOf (mapReduceEvents H fs) =
        map (VariantB.summaryRequest H) (mapNonNull (VariantB.prepareFilePart H) fs) /\
      length (callsOf (mapReduceEvents H fs)) = length (filter supported fs) /\
      delaysOf (mapReduceEvents H fs) = repeat 500%Z (length fs) /\
      (forall r, In r (callsOf evs) -> ~ isSummaryRequest H r).
Proof.
  intros H fs w Hlen.
  destruct (condense_mapReduce H fs w Hlen) as (ss & w1 & Hc & Htr1 & Hl).
  rewrite analyze_condense_tail, Hc.
  destruct (analysisTail_trace H
              [TextPart ("Here are summaries of the provided source materials:" ++ nl ++
                         join nl ss)] w1) as (evs & Htr & Hphase).
  exists ss, evs. repeat split.
  - rewrite Htr, Htr1, <- app_assoc. reflexivity.
  - exact Hl.
  - exact Hphase.
  - apply mapReduce_calls.
  - rewrite mapReduce_calls, length_map. apply directParts_count.
  - apply mapReduce_delays.
  - intros r Hin.
    destruct (analysisPhase_calls H _ evs Hphase r Hin) as [-> | ->];
      apply analysisRequest_not_summary.
Qed.

Lemma map_reduce_large_sets_witness :
  let H := Sim.host (Sim.scripted [] (Sim.answer "{}")) Sim.quiet in
  let fs := [Sim.pdfFile "a.pdf"; Sim.textFile "b.txt"; Sim.textFile "c.md"] in
  exists (summaries : list string) evs,
    trace (snd (VariantB.analyzeFilesForNovelty H fs Sim.world0)) =
      (mapReduceEvents H fs ++ evs)%list /\
    length summaries = 3 /\
    length (callsOf (mapReduceEvents H fs)) = 3.
Proof.
  intros H fs.
  destruct (map_reduce_large_sets H fs Sim.world0) as (ss & evs & Htr & Hl & _ & _ & Hn & _).
  - vm_compute. lia.
  - exists ss, evs. split; [exact Htr | split; [exact Hl | exact Hn]].
Defined.

(** C5, as stated, fails: of three documents, the one of an unsupported
    format is visited without any summarisation call, so the run makes two
    summarisation calls (its only requests without the JSON configuration),
    not three. *)
Lemma one_summary_call_per_document_fails :
  let H := Sim.host (Sim.scripted [] (Sim.answer "S")) Sim.quiet in
  let fs := [Sim.pdfFile "a.pdf"; Sim.imageFile "b.png"; Sim.textFile "c.txt"] in
  length fs = 3 /\
  trace (snd (VariantB.analyzeFilesForNovelty H fs Sim.world0)) =
    [EvCall (VariantB.summaryRequest H (InlineData "application/pdf" "JVBERg=="));
     EvDelay 500;
     EvDelay 500;
     EvCall (VariantB.summaryRequest H
               (TextPart ("[Source Document: c.txt]" ++ nl ++ "hello" ++ nl ++ "---")));
     EvDelay 500;
     EvCall (VariantB.analysisRequest H proModel
               [TextPart ("Here are summaries of the provided source materials:" ++ nl ++
                          "[Summary of a.pdf]:" ++ nl ++ "S" ++ nl ++ "---" ++ nl ++
                          nl ++ nl ++
                          "[Summary of c.txt]:" ++ nl ++ "S" ++ nl ++ "---" ++ nl)]);
     EvCall (VariantB.analysisRequest H flashModel
               [TextPart ("Here are summaries of the provided source materials:" ++ nl ++
                          "[Summary of a.pdf]:" ++ nl ++ "S" ++ nl ++ "---" ++ nl ++
                          nl ++ nl ++
                          "[Summary of c.txt]:" ++ nl ++ "S" ++ nl ++ "---" ++ nl)])] /\
  length (filter (fun req => negb (jsonConfig req))
            (callsOf (trace (snd (VariantB.analyzeFilesForNovelty H fs Sim.world0))))) = 2 /\
  length (callsOf (mapReduceEvents H fs)) <> length fs.
Proof.
  intros H fs. repeat split; vm_compute; (reflexivity || discriminate).
Qed.

(* ================================================================== *)
(** * The analysis and its response *)
(* ================================================================== *)

Lemma orElse_empty (r : Response) (dflt : string) :
  hasText r = false -> orElse (responseText r) dflt = dflt.
Proof.
  unfold hasText, orElse. destruct (responseText r) as [t |]; [| reflexivity].
  now intros ->.
Qed.

Lemma orElse_nonempty (x : option string) (dflt : string) :
  dflt <> "" -> orElse x dflt <> "".
Proof.
  intros Hd. unfold orElse. destruct x as [s |]; [| exact Hd].
  unfold truthy. destruct (String.eqb_spec s ""); simpl; assumption.
Qed.

(** Whatever the first variant returns is the parse of a response body
    that was present and not empty. *)
Lemma analyzeA_returns_parsed (H : Host) (fs : list UploadedFile) (w : World) :
  match VariantA.analyzeFilesForNovelty H fs w with
  | (Ok result, _) => exists t, truthy t = true /\ JSON_parse H t = inr result
  | (Throw _, _) => True
  end.
Proof.
  unfold VariantA.analyzeFilesForNovelty.
  destruct (length (VariantA.prepareFileParts H fs) =? 0)%nat; [exact I |].
  unfold tryCatch, bind.
  destruct (VariantA.callWithRetry H _ 3 2000%Z w) as [[response | e] w1]; [| exact I].
  destruct (responseText response) as [t |]; [| exact I].
  destruct (truthy t) eqn:Ht; [| exact I].
  destruct (JSON_parse H t) as [e | result] eqn:Hp; [exact I |].
  exists t. split; [exact Ht | exact Hp].
Qed.

(** In the second variant, a preferred-tier response without text is
    parsed as the text of an empty object. *)
Lemma analyzeB_empty_body (H : Host) (fs : list UploadedFile) (w w1 w2 : World)
      (parts : list Part) (response : Response) :
  VariantB.condense H fs w = (Ok parts, w1) ->
  VariantB.callWithRetry H
    (generateContent H (VariantB.analysisRequest H proModel parts)) 3 2000 w1 =
    (Ok response, w2) ->
  hasText response = false ->
  JSON_parse H "{}" = inr (JObj []) ->
  VariantB.analyzeFilesForNovelty H fs w = (Ok (JObj []), w2).
Proof.
  intros Hc Hcall Hempty Hparse.
  rewrite analyze_condense_tail, Hc.
  unfold analysisTail, tryCatch, analysisTier, bind. rewrite Hcall.
  unfold VariantB.parseOrDefault. rewrite (orElse_empty _ _ Hempty), Hparse.
  reflexivity.
Qed.

(** C1. The second variant of [analyzeFilesForNovelty] does not treat an
    empty response body as a failure: on one PDF document and a provider
    whose reply has an empty (or an undefined) text, it returns the empty
    object, where the first variant throws "Empty response from AI".  The
    first variant only ever returns the parse of a non-empty body.  A body
    that does not parse is not defaulted by either variant: the second one
    turns to the fallback tier and throws when that fails too. *)
Theorem empty_response_defaulted_in_second_variant :
  (forall (H : Host) (fs : list UploadedFile) (w : World),
      match VariantA.analyzeFilesForNovelty H fs w with
      | (Ok result, _) => exists t, truthy t = true /\ JSON_parse H t = inr result
      | (Throw _, _) => True
      end) /\
  (let H := Sim.host (Sim.scripted [Sim.answer ""] (Sim.failure "no more")) Sim.quiet in
   let fs := [Sim.pdfFile "paper.pdf"] in
   VariantB.analyzeFilesForNovelty H fs Sim.world0 =
     (Ok (JObj []),
      {| trace := [EvCall (VariantB.analysisRequest H proModel
                             [InlineData "application/pdf" "JVBERg=="])];
         store := initialState |}) /\
   VariantA.analyzeFilesForNovelty H fs Sim.world0 =
     (Throw (mkError "Empty response from AI"),
      {| trace := [EvCall (VariantA.analysisRequest H
                             [InlineData "application/pdf" "JVBERg=="])];
         store := initialState |})) /\
  (let H := Sim.host (Sim.scripted [Resolved {| responseText := None |}]
                        (Sim.failure "no more")) Sim.quiet in
   let fs := [Sim.pdfFile "paper.pdf"] in
   fst (VariantB.analyzeFilesForNovelty H fs Sim.world0) = Ok (JObj []) /\
   fst (VariantA.analyzeFilesForNovelty H fs Sim.world0) =
     Throw (mkError "Empty response from AI")) /\
  (let H := Sim.host (Sim.scripted [] (Sim.answer "not json")) Sim.quiet in
   let fs := [Sim.pdfFile "paper.pdf"] in
   VariantB.analyzeFilesForNovelty H fs Sim.world0 =
     (Throw (mkError "Analysis failed after retries: Unexpected token in JSON"),
      {| trace := [EvCall (VariantB.analysisRequest H proModel
                             [InlineData "application/pdf" "JVBERg=="]);
                   EvCall (VariantB.analysisRequest H flashModel
                             [InlineData "application/pdf" "JVBERg=="])];
         store := initialState |}) /\
   fst (VariantA.analyzeFilesForNovelty H fs Sim.world0) =
     Throw (mkError "Unexpected token in JSON")).
Proof.
  split; [exact analyzeA_returns_parsed |].
  repeat split; vm_compute; reflexivity.
Qed.

(** The fallback router at work: the preferred tier is rejected with an
    error that is not transient, and the fast tier answers. *)
Example fallback_tier_answers :
  let H := Sim.host (Sim.tiered (Sim.failure "500 Internal Error") (Sim.answer "[1, 2]"))
             Sim.quiet in
  VariantB.analyzeFilesForNovelty H [Sim.pdfFile "paper.pdf"] Sim.world0 =
    (Ok (JArr [JNum 1; JNum 2]),
     {| trace := [EvCall (VariantB.analysisRequest H proModel
                            [InlineData "application/pdf" "JVBERg=="]);
                  EvCall (VariantB.analysisRequest H flashModel
                            [InlineData "application/pdf" "JVBERg=="])];
        store := initialState |}).
Proof. vm_compute; reflexivity. Qed.

(* ================================================================== *)
(** * Text tools and the advisory dialogue *)
(* ================================================================== *)

(** C9. [applyMagicTool] never throws, whatever the tool: it returns the
    text of the response when there is one, and the original text unchanged
    when the governed provider call fails or the response body is empty. *)
Theorem applyMagicTool_keeps_text_on_failure :
  forall (H : Host) (text : string) (tool : MagicToolType) (w : World),
    (exists result w',
        VariantB.applyMagicTool H text tool w = (Ok result, w')) /\
    (forall error w',
        VariantB.callWithRetry H
          (generateContent H (VariantB.magicRequest text tool)) 3 2000 w =
          (Throw error, w') ->
        VariantB.applyMagicTool H text tool w = (Ok text, w')) /\
    (forall response w',
        VariantB.callWithRetry H
          (generateContent H (VariantB.magicRequest text tool)) 3 2000 w =
          (Ok response, w') ->
        hasText response = false ->
        VariantB.applyMagicTool H text tool w = (Ok text, w')) /\
    (forall response w',
        VariantB.callWithRetry H
          (generateContent H (VariantB.magicRequest text tool)) 3 2000 w =
          (Ok response, w') ->
        hasText response = true ->
        VariantB.applyMagicTool H text tool w =
          (Ok (interpolate (responseText response)), w')).
Proof.
  intros H text tool w. unfold VariantB.applyMagicTool, tryCatch, bind.
  destruct (VariantB.callWithRetry H _ 3 2000%Z w) as [[response | e] w1].
  - split; [eexists _, _; reflexivity |].
    split; [intros error w' Heq; discriminate |].
    split; intros r w' Heq Ht; injection Heq as <- <-; unfold ret.
    + now rewrite orElse_empty.
    + unfold hasText in Ht. unfold orElse, interpolate.
      destruct (responseText response) as [t |]; [| discriminate].
      now rewrite Ht.
  - split; [eexists _, _; reflexivity |].
    split; [intros error w' Heq; injection Heq as <- <-; reflexivity |].
    split; intros r w' Heq; discriminate.
Qed.

Lemma applyMagicTool_keeps_text_on_failure_witness :
  let H := Sim.alwaysRejects "400 Bad Request" in
  VariantB.applyMagicTool H "Some draft." Condense Sim.world0 =
    (Ok "Some draft.",
     {| trace := [EvCall (VariantB.magicRequest "Some draft." Condense)];
        store := initialState |}) /\
  VariantB.applyMagicTool (Sim.host (Sim.scripted [] (Sim.answer "")) Sim.quiet)
    "Some draft." Expand Sim.world0 =
    (Ok "Some draft.",
     {| trace := [EvCall (VariantB.magicRequest "Some draft." Expand)];
        store := initialState |}).
Proof.
  intros H. split.
  - apply (proj1 (proj2 (applyMagicTool_keeps_text_on_failure
                           H "Some draft." Condense Sim.world0))
             (mkError "400 Bad Request")).
    vm_compute; reflexivity.
  - apply (proj1 (proj2 (proj2 (applyMagicTool_keeps_text_on_failure
                           (Sim.host (Sim.scripted [] (Sim.answer "")) Sim.quiet)
                           "Some draft." Expand Sim.world0)))
             {| responseText := Some "" |});
      vm_compute; reflexivity.
Defined.


(* ================================================================== *)
(** * The drafting handlers *)
(* ================================================================== *)

Section Drafting.
Variable H : Host.

Lemma commitDraft_frame (sectionId newContent : string) (prev : ResearchState) :
  onlySectionChanged sectionId newContent prev (commitDraft sectionId newContent prev).
Proof.
  unfold onlySectionChanged, commitDraft, withSections; simpl.
  repeat (split; [reflexivity |]).
  induction (sections prev) as [| s rest IH]; simpl; constructor; [| exact IH].
  unfold sectionCommitted.
  destruct (String.eqb_spec (id s) sectionId) as [Heq | Hne]; simpl;
    repeat split; intros; try reflexivity; contradiction.
Qed.

Lemma generateSectionContentA_total (st : PaperSectionType) (ctx : DraftContext) (w : World) :
  exists newContent w', VariantA.generateSectionContent H st ctx w = (Ok newContent, w').
Proof.
  unfold VariantA.generateSectionContent, tryCatch, bind.
  destruct (VariantA.callWithRetry H _ 3 2000%Z w) as [[r | e] w1];
    eexists _, _; reflexivity.
Qed.

Lemma generateSectionContentB_total (st : PaperSectionType) (ctx : DraftContext) (w : World) :
  exists newContent w', VariantB.generateSectionContent H st ctx w = (Ok newContent, w').
Proof.
  unfold VariantB.generateSectionContent, tryCatch, bind.
  destruct (VariantB.callWithRetry H _ 3 2000%Z w) as [[r | e] w1];
    eexists _, _; reflexivity.
Qed.

End Drafting.

(** Until an analysis is committed the session holds none: edits, chat
    turns and drafting updates leave [hasAnalysis] as it is, and it is false
    in the initial state. *)
Lemma no_analysis_until_committed (fs : list (ResearchState -> ResearchState)) :
  Forall draftingUpdate fs ->
  hasAnalysis (fold_left (fun st f => f st) fs initialState) = false.
Proof.
  intros Hall.
  assert (Hgen : forall st, hasAnalysis st = false ->
                   hasAnalysis (fold_left (fun st f => f st) fs st) = false).
  { induction Hall as [| f rest Hf _ IH]; intros st Hst; simpl; [exact Hst |].
    apply IH. destruct Hf; exact Hst. }
  apply Hgen. reflexivity.
Qed.

(** C7. A drafting request made while the session state holds no analysis
    result is rejected with an alert before anything else happens: no
    provider call is made and the store, hence every section, is left as it
    was.  So it is in both applications, for every section id. *)
Theorem drafting_rejected_without_analysis :
  forall (H : Host) (state : ResearchState) (sectionId : string) (w : World),
    hasAnalysis state = false ->
    (AppB.handleGenerateSection H state sectionId w =
       (Ok tt, {| trace := trace w ++ [EvAlert "Run Analysis first."];
                  store := store w |}) /\
     AppA.handleGenerateSection H state sectionId w =
       (Ok tt, {| trace := trace w ++ [EvAlert "Run 'Deep Analysis' first."];
                  store := store w |})) /\
    callsOf (trace (snd (AppB.handleGenerateSection H state sectionId w))) =
      callsOf (trace w) /\
    callsOf (trace (snd (AppA.handleGenerateSection H state sectionId w))) =
      callsOf (trace w) /\
    sections (store (snd (AppB.handleGenerateSection H state sectionId w))) =
      sections (store w) /\
    sections (store (snd (AppA.handleGenerateSection H state sectionId w))) =
      sections (store w).
Proof.
  intros H state sectionId w Hno.
  unfold AppB.handleGenerateSection, AppA.handleGenerateSection.
  rewrite Hno. simpl. unfold alert, emit. simpl.
  repeat split; rewrite callsOf_app; simpl; apply app_nil_r.
Qed.

Lemma drafting_rejected_without_analysis_witness :
  let H := Sim.host (Sim.scripted [] (Sim.answer "A draft.")) Sim.quiet in
  AppB.handleGenerateSection H initialState "Introduction" Sim.world0 =
    (Ok tt, {| trace := [EvAlert "Run Analysis first."]; store := initialState |}) /\
  callsOf (trace (snd (AppB.handleGenerateSection H initialState "Introduction" Sim.world0))) = [].
Proof.
  intros H.
  destruct (drafting_rejected_without_analysis H initialState "Introduction" Sim.world0)
    as ((HB & _) & Hcalls & _).
  - vm_compute; reflexivity.
  - split; [exact HB | exact Hcalls].
Defined.

(** C8. When the drafting task of a section completes, with a draft or with
    a degraded error text, the handler commits [commitDraft] on the store as
    it is at that moment, not on the snapshot it started from: in the
    committed state only the content and the generating flag of the drafted
    section differ from the latest state; every other section, the chat
    transcript and all other fields are those of the latest state, whatever
    the other tasks did to them while the task was running. *)
Theorem drafting_commit_preserves_others :
  forall (H : Host) (state : ResearchState) (sectionId : string) (w : World)
         (section : PaperSection),
    hasAnalysis state = true ->
    find (fun s => String.eqb (id s) sectionId) (sections state) = Some section ->
    (exists newContent tr latest,
        VariantB.generateSectionContent H (sectionType section)
          (draftContext state sectionId) (afterUpdate (markGenerating sectionId) w) =
          (Ok newContent, {| trace := tr; store := latest |}) /\
        AppB.handleGenerateSection H state sectionId w =
          (Ok tt, {| trace := tr; store := commitDraft sectionId newContent latest |}) /\
        onlySectionChanged sectionId newContent latest
          (commitDraft sectionId newContent latest)) /\
    (hasData state = true ->
     exists newContent tr latest,
        VariantA.generateSectionContent H (sectionType section)
          (draftContext state sectionId) (afterUpdate (markGenerating sectionId) w) =
          (Ok newContent, {| trace := tr; store := latest |}) /\
        AppA.handleGenerateSection H state sectionId w =
          (Ok tt, {| trace := tr; store := commitDraft sectionId newContent latest |}) /\
        onlySectionChanged sectionId newContent latest
          (commitDraft sectionId newContent latest)).
Proof.
  intros H state sectionId w section Hyes Hfind. split.
  - destruct (generateSectionContentB_total H (sectionType section)
                (draftContext state sectionId) (afterUpdate (markGenerating sectionId) w))
      as (c & [tr latest] & Hgen).
    exists c, tr, latest. split; [exact Hgen |]. split; [| apply commitDraft_frame].
    unfold AppB.handleGenerateSection. rewrite Hyes, Hfind. simpl.
    unfold bind, setState. fold (afterUpdate (markGenerating sectionId) w).
    rewrite Hgen. reflexivity.
  - intros Hdata.
    destruct (generateSectionContentA_total H (sectionType section)
                (draftContext state sectionId) (afterUpdate (markGenerating sectionId) w))
      as (c & [tr latest] & Hgen).
    exists c, tr, latest. split; [exact Hgen |]. split; [| apply commitDraft_frame].
    unfold AppA.handleGenerateSection. rewrite Hyes, Hdata, Hfind. simpl.
    unfold bind, setState. fold (afterUpdate (markGenerating sectionId) w).
    rewrite Hgen. reflexivity.
Qed.

Lemma drafting_commit_preserves_others_witness :
  let H := Sim.host (Sim.scripted [] (Sim.answer "A draft.")) Sim.busyUser in
  let w := {| trace := []; store := Sim.analysedState |} in
  exists newContent tr latest,
    AppB.handleGenerateSection H Sim.analysedState "Introduction" w =
      (Ok tt, {| trace := tr; store := commitDraft "Introduction" newContent latest |}) /\
    onlySectionChanged "Introduction" newContent latest
      (commitDraft "Introduction" newContent latest).
Proof.
  intros H w.
  destruct (drafting_commit_preserves_others H Sim.analysedState "Introduction" w
              {| id := "Introduction"; sectionType := Introduction; title := "Introduction";
                 content := ""; isGenerating := false; notes := "" |})
    as ((c & tr & latest & _ & Hrun & Hframe) & _).
  - vm_compute; reflexivity.
  - vm_compute; reflexivity.
  - exists c, tr, latest. split; [exact Hrun | exact Hframe].
Defined.

(** A run of the handler during which the user edits another section and
    sends a chat message: both survive the commit of the draft. *)
Example concurrent_edits_survive :
  let H := Sim.host (Sim.scripted [] (Sim.answer "A draft.")) Sim.busyUser in
  let w := {| trace := []; store := Sim.analysedState |} in
  store (snd (AppB.handleGenerateSection H Sim.analysedState "Introduction" w)) =
    commitDraft "Introduction" "A draft."
      (appendChat Sim.question
         (updateSection "Abstract" "Edited by hand."
            (markGenerating "Introduction" Sim.analysedState))) /\
  chatHistory (store (snd (AppB.handleGenerateSection H Sim.analysedState "Introduction" w))) =
    [Sim.question] /\
  map (fun s => (id s, content s, isGenerating s))
      (firstn 3 (sections (store (snd (AppB.handleGenerateSection H Sim.analysedState
                                         "Introduction" w))))) =
    [("Title", "", false); ("Abstract", "Edited by hand.", false);
     ("Introduction", "A draft.", false)].
Proof. repeat split; vm_compute; reflexivity. Qed.

(* ================================================================== *)
(** * Data URLs *)
(* ================================================================== *)

Lemma substring_all (s : string) : substring 0 (String.length s) s = s.
Proof. induction s as [| c r IH]; simpl; [reflexivity | now rewrite IH]. Qed.

Lemma substring_suffix (s : string) :
  forall n, exists pre, s = pre ++ substring n (String.length s - n) s.
Proof.
  induction s as [| c r IH]; intros n.
  - exists "". destruct n; reflexivity.
  - destruct n as [| n].
    + exists "". rewrite Nat.sub_0_r, substring_all. reflexivity.
    + destruct (IH n) as (pre & Hpre). exists (String c pre).
      simpl. now rewrite <- Hpre.
Qed.

Lemma dropStr_suffix (n : nat) (s : string) : exists pre, s = pre ++ dropStr n s.
Proof. apply substring_suffix. Qed.

Lemma append_assoc (a b c : string) : (a ++ b) ++ c = a ++ b ++ c.
Proof. induction a as [| x a IH]; simpl; [reflexivity | now rewrite IH]. Qed.

Lemma afterLastMarker_suffix (r : string) :
  forall t, afterLastMarker r = Some t -> exists pre, r = pre ++ t.
Proof.
  induction r as [| c r IH]; intros t; cbn [afterLastMarker]; [discriminate |].
  destruct (lineTerminatorAt (String c r)); [discriminate |].
  destruct (afterLastMarker r) as [t' |].
  - intros Heq. injection Heq as <-. destruct (IH t' eq_refl) as (pre & ->).
    exists (String c pre). reflexivity.
  - destruct (String.prefix ";base64," (String c r)); [| discriminate].
    intros Heq. injection Heq as <-. apply dropStr_suffix.
Qed.

Lemma prefix_cons (a c : ascii) (s1 s2 : string) :
  String.prefix (String a s1) (String c s2) =
  if ascii_dec a c then String.prefix s1 s2 else false.
Proof. reflexivity. Qed.

Lemma afterLastMarker_none (s : string) :
  allChars notSemicolon s = true -> afterLastMarker s = None.
Proof.
  induction s as [| c r IH]; [reflexivity |].
  cbn [allChars afterLastMarker].
  intros Hall. apply andb_prop in Hall as [Hc Hr].
  rewrite (IH Hr). destruct (lineTerminatorAt (String c r)); [reflexivity |].
  unfold notSemicolon in Hc. destruct (Ascii.eqb_spec c ";") as [-> | Hne]; [discriminate |].
  change ";base64," with (String ";" "base64,"). rewrite prefix_cons.
  destruct (ascii_dec ";" c) as [<- | _]; [contradiction | reflexivity].
Qed.

Lemma prefix_append (a b : string) : String.prefix a (a ++ b) = true.
Proof.
  induction a as [| c a IH]; [destruct b; reflexivity |].
  change (String c a ++ b) with (String c (a ++ b)). rewrite prefix_cons.
  destruct (ascii_dec c c) as [_ | Hne]; [exact IH | contradiction].
Qed.

Lemma dropStr_append (a b : string) : dropStr (String.length a) (a ++ b) = b.
Proof.
  unfold dropStr. induction a as [| c a IH]; simpl.
  - rewrite Nat.sub_0_r. apply substring_all.
  - exact IH.
Qed.

(** Whether a line terminator starts at the head of a string does not
    depend on what follows it, when that starts with a semicolon. *)
Lemma lineTerminatorAt_before_marker (c : ascii) (m rest : string) :
  lineTerminatorAt (String c (m ++ String ";" rest)) = lineTerminatorAt (String c m).
Proof.
  destruct m as [| d [| e m]]; cbn [append lineTerminatorAt].
  - destruct rest; cbn; now rewrite ?andb_false_r.
  - cbn. now rewrite !andb_false_r.
  - reflexivity.
Qed.

Lemma afterLastMarker_marker (payload : string) :
  allChars notSemicolon payload = true ->
  forall m, freeOfLineTerminators m = true ->
    afterLastMarker (m ++ ";base64," ++ payload) = Some payload.
Proof.
  intros Hp. induction m as [| c m IH]; intros Hm.
  - assert (Hnone : afterLastMarker ("base64," ++ payload) = None).
    { apply afterLastMarker_none. exact Hp. }
    change ("" ++ ";base64," ++ payload) with (String ";" ("base64," ++ payload)).
    cbn [afterLastMarker]. rewrite Hnone.
    replace (lineTerminatorAt (String ";" ("base64," ++ payload))) with false
      by (symmetry; apply (lineTerminatorAt_before_marker ";" "" ("base64," ++ payload))).
    change (String ";" ("base64," ++ payload)) with (";base64," ++ payload).
    rewrite prefix_append.
    change 8 with (String.length ";base64,"). rewrite dropStr_append.
    reflexivity.
  - cbn [freeOfLineTerminators] in Hm. apply andb_prop in Hm as [Hc Hm].
    apply negb_true_iff in Hc.
    change (String c m ++ ";base64," ++ payload)
      with (String c (m ++ String ";" ("base64," ++ payload))).
    cbn [afterLastMarker]. rewrite lineTerminatorAt_before_marker, Hc.
    change (m ++ String ";" ("base64," ++ payload)) with (m ++ ";base64," ++ payload).
    now rewrite (IH Hm).
Qed.

(** X1. [cleanBase64] undoes the header of a data URL: for a media type
    that is not empty and in which no line terminator (LF, CR, U+2028,
    U+2029) occurs, and a payload without a semicolon (as every base64
    payload is), the result is the payload. *)
Theorem cleanBase64_strips_header :
  forall mime payload : string,
    mime <> "" ->
    freeOfLineTerminators mime = true ->
    allChars notSemicolon payload = true ->
    cleanBase64 ("data:" ++ mime ++ ";base64," ++ payload) = payload.
Proof.
  intros mime payload Hne Hm Hp.
  destruct mime as [| c m]; [contradiction |].
  cbn [freeOfLineTerminators] in Hm. apply andb_prop in Hm as [Hc Hm].
  apply negb_true_iff in Hc.
  unfold cleanBase64. rewrite prefix_append.
  change 5 with (String.length "data:"). rewrite dropStr_append.
  change (String c m ++ ";base64," ++ payload)
    with (String c (m ++ String ";" ("base64," ++ payload))).
  cbv beta iota. rewrite lineTerminatorAt_before_marker, Hc.
  change (m ++ String ";" ("base64," ++ payload)) with (m ++ ";base64," ++ payload).
  now rewrite (afterLastMarker_marker payload Hp m Hm).
Qed.

Lemma cleanBase64_strips_header_witness :
  cleanBase64 "data:text/plain;charset=utf-8;base64,aGVsbG8=" = "aGVsbG8=".
Proof.
  apply (cleanBase64_strips_header "text/plain;charset=utf-8" "aGVsbG8=").
  - discriminate.
  - vm_compute; reflexivity.
  - vm_compute; reflexivity.
Defined.

(** X2. [cleanBase64] only ever removes a prefix: its result is a suffix
    of its argument, and a string that does not start with [data:] comes
    back unchanged. *)
Theorem cleanBase64_is_suffix :
  forall b64 : string,
    (exists pre, b64 = pre ++ cleanBase64 b64) /\
    (String.prefix "data:" b64 = false -> cleanBase64 b64 = b64).
Proof.
  intros b64. split.
  - unfold cleanBase64.
    destruct (String.prefix "data:" b64); [| exists ""; reflexivity].
    destruct (dropStr_suffix 5 b64) as (pre & Hpre).
    destruct (dropStr 5 b64) as [| c r] eqn:Hd; [exists ""; reflexivity |].
    destruct (lineTerminatorAt (String c r)); [exists ""; reflexivity |].
    destruct (afterLastMarker r) as [t |] eqn:Ht; [| exists ""; reflexivity].
    destruct (afterLastMarker_suffix r t Ht) as (pre' & ->).
    exists (pre ++ String c pre'). rewrite Hpre at 1.
    rewrite append_assoc. reflexivity.
  - intros Hno. unfold cleanBase64. now rewrite Hno.
Qed.

Lemma cleanBase64_is_suffix_witness :
  cleanBase64 "JVBERi0xLjQ=" = "JVBERi0xLjQ=".
Proof.
  apply (proj2 (cleanBase64_is_suffix "JVBERi0xLjQ=")). vm_compute; reflexivity.
Defined.

(* ================================================================== *)
(** * Budgets of the governor *)
(* ================================================================== *)

Lemma trace_afterDelay (H : Host) (ms : Z) (w : World) :
  trace (afterDelay H ms w) = (trace w ++ [EvDelay ms])%list.
Proof. reflexivity. Qed.

Lemma callWithRetryA_budget (H : Host) (req : Request) (retries : nat) :
  forall (delayMs : Z) (w : World),
  exists k evs,
    k <= retries /\
    trace (snd (VariantA.callWithRetry H (generateContent H req) retries delayMs w)) =
      (trace w ++ evs)%list /\
    callsOf evs = repeat req (S k) /\
    delaysOf evs = backoff k delayMs /\
    alertsOf evs = [].
Proof.
  induction retries as [| r IH]; intros delayMs w;
    rewrite callWithRetryA_unfold;
    pose proof (generateContent_trace H req w) as Hg;
    destruct (generateContent H req w) as [[a | error] w1]; simpl in Hg.
  - exists 0, [EvCall req]. repeat split; auto.
  - exists 0, [EvCall req].
    destruct (VariantA.isRetryable (errorMsg error)); repeat split; auto.
  - exists 0, [EvCall req]. repeat split; auto. lia.
  - destruct (VariantA.isRetryable (errorMsg error)).
    + destruct (IH (delayMs * 2)%Z (afterDelay H delayMs w1))
        as (k & evs & Hk & Htr & Hc & Hd & Ha).
      exists (S k), (EvCall req :: EvDelay delayMs :: evs)%list.
      split; [lia |]. split.
      { rewrite Htr, trace_afterDelay, Hg, <- !app_assoc. reflexivity. }
      split; [simpl; now rewrite Hc |].
      split; [simpl; now rewrite Hd | exact Ha].
    + exists 0, [EvCall req]. repeat split; auto. lia.
Qed.

Lemma callWithRetryB_budget (H : Host) (req : Request) (retries : nat) :
  forall (delayMs : Z) (w : World),
  exists k evs,
    k <= retries /\
    trace (snd (VariantB.callWithRetry H (generateContent H req) retries delayMs w)) =
      (trace w ++ evs)%list /\
    callsOf evs = repeat req (S k) /\
    delaysOf evs = backoff k delayMs /\
    alertsOf evs = [].
Proof.
  induction retries as [| r IH]; intros delayMs w;
    rewrite callWithRetryB_unfold;
    pose proof (generateContent_trace H req w) as Hg;
    destruct (generateContent H req w) as [[a | error] w1]; simpl in Hg.
  - exists 0, [EvCall req]. repeat split; auto.
  - exists 0, [EvCall req].
    destruct (VariantB.isRetryable (errorMsg error)); repeat split; auto.
  - exists 0, [EvCall req]. repeat split; auto. lia.
  - destruct (VariantB.isRetryable (errorMsg error)).
    + destruct (IH (delayMs * 2)%Z (afterDelay H delayMs w1))
        as (k & evs & Hk & Htr & Hc & Hd & Ha).
      exists (S k), (EvCall req :: EvDelay delayMs :: evs)%list.
      split; [lia |]. split.
      { rewrite Htr, trace_afterDelay, Hg, <- !app_assoc. reflexivity. }
      split; [simpl; now rewrite Hc |].
      split; [simpl; now rewrite Hd | exact Ha].
    + exists 0, [EvCall req]. repeat split; auto. lia.
Qed.

(** X3. A governed provider call makes at least one and at most
    [retries + 1] calls, all of the same request; its waits are the first
    waits of the backoff schedule, one between two consecutive calls; and it
    shows no alert.  With the defaults that is at most 4 calls and waits of
    2000, 4000 and 8000 ms.  So it is in both variants. *)
Theorem governed_call_budget :
  forall (H : Host) (req : Request) (retries : nat) (delayMs : Z) (w : World),
    (exists k evs,
        k <= retries /\
        trace (snd (VariantA.callWithRetry H (generateContent H req) retries delayMs w)) =
          (trace w ++ evs)%list /\
        callsOf evs = repeat req (S k) /\
        delaysOf evs = backoff k delayMs /\
        alertsOf evs = []) /\
    (exists k evs,
        k <= retries /\
        trace (snd (VariantB.callWithRetry H (generateContent H req) retries delayMs w)) =
          (trace w ++ evs)%list /\
        callsOf evs = repeat req (S k) /\
        delaysOf evs = backoff k delayMs /\
        alertsOf evs = []).
Proof.
  intros H req retries delayMs w. split.
  - apply callWithRetryA_budget.
  - apply callWithRetryB_budget.
Qed.

Lemma generateContent_rejected (H : Host) (req : Request) (error : JSError) (w : World) :
  provider H (trace w) req = Rejected error ->
  generateContent H req w = (Throw error, suspend H (emit (EvCall req) w)).
Proof. intros Hp. unfold generateContent. now rewrite Hp. Qed.

Lemma generateContent_resolved (H : Host) (req : Request) (response : Response) (w : World) :
  provider H (trace w) req = Resolved response ->
  generateContent H req w = (Ok response, suspend H (emit (EvCall req) w)).
Proof. intros Hp. unfold generateContent. now rewrite Hp. Qed.





(* ================================================================== *)
(** * Summaries, drafts and attachments *)
(* ================================================================== *)

(** X5. [summarizeFile] is not governed and never throws: a rejected
    call, transient or not, is not retried; the summary is empty after that
    one call and no wait.  A document the preparer rejects is summarised as
    empty without any call. *)
Theorem summarizeFile_single_attempt :
  forall (H : Host) (file : UploadedFile) (w : World),
    (forall part error,
        VariantB.prepareFilePart H file = Some part ->
        provider H (trace w) (VariantB.summaryRequest H part) = Rejected error ->
        VariantB.summarizeFile H file w =
          (Ok "", suspend H (emit (EvCall (VariantB.summaryRequest H part)) w))) /\
    (forall part response,
        VariantB.prepareFilePart H file = Some part ->
        provider H (trace w) (VariantB.summaryRequest H part) = Resolved response ->
        VariantB.summarizeFile H file w =
          (Ok ("[Summary of " ++ name file ++ "]:" ++ nl ++
               interpolate (responseText response) ++ nl ++ "---" ++ nl),
           suspend H (emit (EvCall (VariantB.summaryRequest H part)) w))) /\
    (VariantB.prepareFilePart H file = None ->
     VariantB.summarizeFile H file w = (Ok "", w)).
Proof.
  intros H file w. unfold VariantB.summarizeFile. repeat split.
  - intros part error -> Hp. unfold tryCatch, bind.
    now rewrite (generateContent_rejected _ _ _ _ Hp).
  - intros part response -> Hp. unfold tryCatch, bind.
    now rewrite (generateContent_resolved _ _ _ _ Hp).
  - intros ->. reflexivity.
Qed.

Lemma summarizeFile_single_attempt_witness :
  let H := Sim.alwaysRejects "429 Too Many Requests" in
  VariantB.summarizeFile H (Sim.textFile "notes.txt") Sim.world0 =
    (Ok "",
     {| trace := [EvCall (VariantB.summaryRequest H
                            (TextPart ("[Source Document: notes.txt]" ++ nl ++ "hello" ++
                                       nl ++ "---")))];
        store := initialState |}) /\
  VariantB.summarizeFile H (Sim.imageFile "figure.png") Sim.world0 = (Ok "", Sim.world0).
Proof.
  intros H. split.
  - apply (proj1 (summarizeFile_single_attempt H (Sim.textFile "notes.txt") Sim.world0)
             (TextPart ("[Source Document: notes.txt]" ++ nl ++ "hello" ++ nl ++ "---"))
             (mkError "429 Too Many Requests")); vm_compute; reflexivity.
  - apply (proj2 (proj2 (summarizeFile_single_attempt H (Sim.imageFile "figure.png")
                           Sim.world0))).
    vm_compute; reflexivity.
Defined.

Lemma append_nonempty (a b : string) : a <> "" -> a ++ b <> "".
Proof. destruct a; [contradiction | discriminate]. Qed.

(** X6. [generateSectionContent] never throws and never returns an empty
    draft, in both variants: when the governed call fails the draft is an
    inline error text quoting the message of the error, and when the
    response has no text it is a fixed failure text. *)
Theorem generateSectionContent_degrades :
  forall (H : Host) (st : PaperSectionType) (ctx : DraftContext) (w : World),
    (exists draft w',
        VariantB.generateSectionContent H st ctx w = (Ok draft, w') /\ draft <> "") /\
    (exists draft w',
        VariantA.generateSectionContent H st ctx w = (Ok draft, w') /\ draft <> "") /\
    (forall error w',
        VariantB.callWithRetry H (generateContent H (VariantB.draftRequest H st ctx)) 3 2000 w =
          (Throw error, w') ->
        VariantB.generateSectionContent H st ctx w =
          (Ok ("Error: " ++ interpolate (message error)), w')) /\
    (forall error w',
        VariantA.callWithRetry H (generateContent H (VariantA.draftRequest H st ctx)) 3 2000 w =
          (Throw error, w') ->
        VariantA.generateSectionContent H st ctx w =
          (Ok ("Error generating content: " ++ interpolate (message error) ++
               ". Please try again later."), w')) /\
    (forall response w',
        VariantB.callWithRetry H (generateContent H (VariantB.draftRequest H st ctx)) 3 2000 w =
          (Ok response, w') ->
        hasText response = false ->
        VariantB.generateSectionContent H st ctx w = (Ok "Failed.", w')) /\
    (forall response w',
        VariantA.callWithRetry H (generateContent H (VariantA.draftRequest H st ctx)) 3 2000 w =
          (Ok response, w') ->
        hasText response = false ->
        VariantA.generateSectionContent H st ctx w = (Ok "Failed to generate content.", w')).
Proof.
  intros H st ctx w.
  unfold VariantB.generateSectionContent, VariantA.generateSectionContent, tryCatch, bind.
  split; [| split; [| split; [| split; [| split]]]].
  - destruct (VariantB.callWithRetry H _ 3 2000%Z w) as [[r | e] w1];
      eexists _, _; (split; [reflexivity |]).
    + apply orElse_nonempty. discriminate.
    + discriminate.
  - destruct (VariantA.callWithRetry H _ 3 2000%Z w) as [[r | e] w1];
      eexists _, _; (split; [reflexivity |]).
    + apply orElse_nonempty. discriminate.
    + discriminate.
  - intros error w' ->. reflexivity.
  - intros error w' ->. reflexivity.
  - intros response w' -> He. unfold ret. now rewrite (orElse_empty _ _ He).
  - intros response w' -> He. unfold ret. now rewrite (orElse_empty _ _ He).
Qed.

Lemma generateSectionContent_degrades_witness :
  let H := Sim.alwaysRejects "403 Forbidden" in
  let ctx := draftContext Sim.analysedState "Introduction" in
  VariantB.generateSectionContent H Introduction ctx Sim.world0 =
    (Ok "Error: 403 Forbidden",
     {| trace := [EvCall (VariantB.draftRequest H Introduction ctx)];
        store := initialState |}) /\
  VariantB.generateSectionContent (Sim.host (Sim.scripted [] (Sim.answer "")) Sim.quiet)
    Introduction ctx Sim.world0 =
    (Ok "Failed.",
     {| trace := [EvCall (VariantB.draftRequest
                            (Sim.host (Sim.scripted [] (Sim.answer "")) Sim.quiet)
                            Introduction ctx)];
        store := initialState |}).
Proof.
  intros H ctx. split.
  - apply (proj1 (proj2 (proj2 (generateSectionContent_degrades H Introduction ctx Sim.world0)))
             (mkError "403 Forbidden")).
    vm_compute; reflexivity.
  - apply (proj1 (proj2 (proj2 (proj2 (proj2
             (generateSectionContent_degrades
                (Sim.host (Sim.scripted [] (Sim.answer "")) Sim.quiet)
                Introduction ctx Sim.world0)))))
             {| responseText := Some "" |}); vm_compute; reflexivity.
Defined.

(** X7. The drafting context attaches at most three parts, taken from the
    first three documents only: documents after the third never change
    what is attached. *)
Theorem filesToPartsLimited_first_three :
  forall (H : Host) (fs extra : list UploadedFile),
    length (VariantB.filesToPartsLimited H fs) <= 3 /\
    (3 <= length fs ->
     VariantB.filesToPartsLimited H (fs ++ extra) = VariantB.filesToPartsLimited H fs).
Proof.
  intros H fs extra. unfold VariantB.filesToPartsLimited. split.
  - etransitivity; [apply mapNonNull_length_le |]. rewrite length_firstn. lia.
  - intros Hlen. rewrite firstn_app.
    replace (3 - length fs) with 0 by lia. simpl. now rewrite app_nil_r.
Qed.

Lemma filesToPartsLimited_first_three_witness :
  let H := Sim.host (Sim.scripted [] (Sim.answer "ok")) Sim.quiet in
  let fs := [Sim.pdfFile "a.pdf"; Sim.pdfFile "b.pdf"; Sim.pdfFile "c.pdf"] in
  VariantB.filesToPartsLimited H (fs ++ [Sim.textFile "d.txt"]) =
  VariantB.filesToPartsLimited H fs.
Proof.
  intros H fs.
  apply (proj2 (filesToPartsLimited_first_three H fs [Sim.textFile "d.txt"])).
  vm_compute. lia.
Defined.

(* ================================================================== *)
(** * The analysis: validation, errors and budget *)
(* ================================================================== *)




Lemma condense_total (H : Host) (fs : list UploadedFile) (w : World) :
  exists parts w1 evs,
    VariantB.condense H fs w = (Ok parts, w1) /\
    trace w1 = (trace w ++ evs)%list /\
    evs = (if (2 <? length fs)%nat then mapReduceEvents H fs else []).
Proof.
  destruct (Nat.ltb_spec 2 (length fs)) as [Hlt | Hle].
  - destruct (condense_mapReduce H fs w Hlt) as (ss & w1 & Hc & Htr & _).
    eexists _, w1, _. split; [exact Hc |]. split; [exact Htr | reflexivity].
  - eexists _, w, _. split; [apply condense_direct; exact Hle |].
    split; [now rewrite app_nil_r | reflexivity].
Qed.

(** X9. Whatever the second variant of [analyzeFilesForNovelty] throws
    names the operation: its message starts with "Analysis failed after
    retries: ", followed by the message of the fallback tier's error. *)
Theorem analyzeB_error_names_operation :
  forall (H : Host) (fs : list UploadedFile) (w w' : World) (error : JSError),
    VariantB.analyzeFilesForNovelty H fs w = (Throw error, w') ->
    exists detail, message error = Some ("Analysis failed after retries: " ++ detail).
Proof.
  intros H fs w w' error. rewrite analyze_condense_tail.
  destruct (condense_total H fs w) as (parts & w1 & evs & -> & _ & _).
  unfold analysisTail, tryCatch.
  destruct (analysisTier H proModel parts w1) as [[j | e1] w2]; [discriminate |].
  destruct (analysisTier H flashModel parts w2) as [[j | e2] w3]; [discriminate |].
  unfold throw. intros [= <- _]. eexists. reflexivity.
Qed.

Lemma analyzeB_error_names_operation_witness :
  exists detail,
    message (mkError "Analysis failed after retries: 500 Internal Error") =
    Some ("Analysis failed after retries: " ++ detail).
Proof.
  apply (analyzeB_error_names_operation (Sim.alwaysRejects "500 Internal Error")
           [Sim.pdfFile "paper.pdf"] Sim.world0
           {| trace := [EvCall (VariantB.analysisRequest
                                  (Sim.alwaysRejects "500 Internal Error") proModel
                                  [InlineData "application/pdf" "JVBERg=="]);
                        EvCall (VariantB.analysisRequest
                                  (Sim.alwaysRejects "500 Internal Error") flashModel
                                  [InlineData "application/pdf" "JVBERg=="])];
              store := initialState |}).
  vm_compute; reflexivity.
Defined.

(** X10. Whatever the first variant of [analyzeFilesForNovelty] throws
    carries a message that is defined and not empty: an error without a
    message is replaced by "Failed to analyze documents.". *)
Theorem analyzeA_error_has_message :
  forall (H : Host) (fs : list UploadedFile) (w w' : World) (error : JSError),
    VariantA.analyzeFilesForNovelty H fs w = (Throw error, w') ->
    exists msg, message error = Some msg /\ msg <> "".
Proof.
  intros H fs w w' error. unfold VariantA.analyzeFilesForNovelty.
  destruct (length (VariantA.prepareFileParts H fs) =? 0)%nat.
  - unfold throw. intros [= <- _]. eexists. split; [reflexivity | discriminate].
  - unfold tryCatch, bind.
    assert (Hmsg : forall e, exists msg,
               message (mkError (orElse (message e) "Failed to analyze documents.")) = Some msg /\
               msg <> "").
    { intros e. eexists. split; [reflexivity |]. apply orElse_nonempty. discriminate. }
    destruct (VariantA.callWithRetry H _ 3 2000%Z w) as [[response | e] w1].
    + destruct (responseText response) as [t |].
      * destruct (truthy t).
        -- destruct (JSON_parse H t) as [e | j]; unfold throw, ret.
           ++ intros [= <- _]. apply Hmsg.
           ++ discriminate.
        -- unfold throw. intros [= <- _].
           eexists. split; [reflexivity | discriminate].
      * unfold throw. intros [= <- _].
        eexists. split; [reflexivity | discriminate].
    + unfold throw. intros [= <- _]. apply Hmsg.
Qed.

Lemma analyzeA_error_has_message_witness :
  exists msg, message (mkError "Failed to analyze documents.") = Some msg /\ msg <> "".
Proof.
  apply (analyzeA_error_has_message
           (Sim.host (Sim.scripted [] (Rejected {| message := None |})) Sim.quiet)
           [Sim.pdfFile "paper.pdf"] Sim.world0
           {| trace := [EvCall (VariantA.analysisRequest
                                  (Sim.host (Sim.scripted [] (Rejected {| message := None |}))
                                     Sim.quiet)
                                  [InlineData "application/pdf" "JVBERg=="])];
              store := initialState |}).
  vm_compute; reflexivity.
Defined.

Lemma alertsOf_app (tr1 tr2 : list Event) :
  alertsOf (tr1 ++ tr2) = (alertsOf tr1 ++ alertsOf tr2)%list.
Proof. unfold alertsOf. now rewrite flat_map_app. Qed.

Lemma mapReduce_alerts (H : Host) (fs : list UploadedFile) :
  alertsOf (mapReduceEvents H fs) = [].
Proof.
  induction fs as [| f rest IH]; simpl; [reflexivity |].
  rewrite !alertsOf_app, IH. unfold summaryEvents.
  destruct (VariantB.prepareFilePart H f); reflexivity.
Qed.

Lemma analysisTier_budget (H : Host) (tier : string) (parts : list Part) (w : World) :
  exists evs,
    trace (snd (analysisTier H tier parts w)) = (trace w ++ evs)%list /\
    1 <= length (callsOf evs) <= 4 /\
    alertsOf evs = [].
Proof.
  destruct (callWithRetryB_budget H (VariantB.analysisRequest H tier parts) 3 2000%Z w)
    as (k & evs & Hk & Htr & Hc & _ & Ha).
  exists evs. split; [| split; [rewrite Hc, repeat_length; lia | exact Ha]].
  unfold analysisTier, bind.
  destruct (VariantB.callWithRetry H _ 3 2000%Z w) as [[response | e] w1]; simpl in *.
  - pose proof (parseOrDefault_world H response w1) as Hp.
    destruct (VariantB.parseOrDefault H response w1) as [r w2]; simpl in *.
    subst w2. exact Htr.
  - exact Htr.
Qed.

Lemma analysisTail_budget (H : Host) (parts : list Part) (w : World) :
  exists evs,
    trace (snd (analysisTail H parts w)) = (trace w ++ evs)%list /\
    1 <= length (callsOf evs) <= 8 /\
    alertsOf evs = [].
Proof.
  destruct (analysisTier_budget H proModel parts w) as (evs1 & Htr1 & Hn1 & Ha1).
  unfold analysisTail, tryCatch.
  destruct (analysisTier H proModel parts w) as [[j | e] w1]; simpl in Htr1.
  - exists evs1. split; [exact Htr1 |]. split; [lia | exact Ha1].
  - destruct (analysisTier_budget H flashModel parts w1) as (evs2 & Htr2 & Hn2 & Ha2).
    exists (evs1 ++ evs2)%list. split; [| split].
    + destruct (analysisTier H flashModel parts w1) as [[j | e2] w2]; simpl in *;
        rewrite Htr2, Htr1, <- app_assoc; reflexivity.
    + rewrite callsOf_app, length_app. lia.
    + rewrite alertsOf_app, Ha1, Ha2. reflexivity.
Qed.

(** X11. A run of the second variant of [analyzeFilesForNovelty] makes
    at least one provider call and at most eight analysis calls (four per
    tier) on top of its summarisation calls, which are one per supported
    document in map-reduce mode and none in direct mode; it never shows an
    alert. *)
Theorem analyzeB_call_budget :
  forall (H : Host) (fs : list UploadedFile) (w : World),
    exists evs,
      trace (snd (VariantB.analyzeFilesForNovelty H fs w)) = (trace w ++ evs)%list /\
      1 <= length (callsOf evs) /\
      length (callsOf evs) <=
        (if (2 <? length fs)%nat then length (filter supported fs) else 0) + 8 /\
      alertsOf evs = [].
Proof.
  intros H fs w. rewrite analyze_condense_tail.
  destruct (condense_total H fs w) as (parts & w1 & evs0 & -> & Htr0 & Hevs0).
  destruct (analysisTail_budget H parts w1) as (evs & Htr & Hn & Ha).
  exists (evs0 ++ evs)%list. split; [| split; [| split]].
  - rewrite Htr, Htr0, <- app_assoc. reflexivity.
  - rewrite callsOf_app, length_app. lia.
  - rewrite callsOf_app, length_app. subst evs0.
    destruct (2 <? length fs)%nat.
    + rewrite mapReduce_calls, length_map, directParts_count. lia.
    + simpl. lia.
  - rewrite alertsOf_app, Ha. subst evs0.
    destruct (2 <? length fs)%nat; [now rewrite mapReduce_alerts | reflexivity].
Qed.

(** X12. The second variant of [analyzeFilesForNovelty] does not
    validate its input: in direct mode, when no document is of a supported
    format (or there is none), it still calls the preferred tier, with the
    prompt as the only part. *)
Theorem analyzeB_sends_prompt_alone :
  forall (H : Host) (fs : list UploadedFile) (w : World),
    length fs <= 2 ->
    filter supported fs = [] ->
    exists evs,
      trace (snd (VariantB.analyzeFilesForNovelty H fs w)) =
        (trace w ++
         EvCall {| modelName := proModel;
                   contents := Parts [TextPart (analysisPromptB H)];
                   jsonConfig := true |} :: evs)%list.
Proof.
  intros H fs w Hlen Hnone.
  rewrite analyze_condense_tail, condense_direct by exact Hlen.
  assert (Hparts : mapNonNull (VariantB.prepareFilePart H) fs = []).
  { apply length_zero_iff_nil. now rewrite directParts_count, Hnone. }
  rewrite Hparts.
  destruct (analysisTail_trace H [] w) as (evs & Htr & (evs1 & evs2 & -> & _ & _)).
  exists (evs1 ++ evs2)%list. exact Htr.
Qed.

Lemma analyzeB_sends_prompt_alone_witness :
  let H := Sim.host (Sim.scripted [] (Sim.answer "{}")) Sim.quiet in
  exists evs,
    trace (snd (VariantB.analyzeFilesForNovelty H [Sim.imageFile "figure.png"] Sim.world0)) =
      (EvCall {| modelName := proModel;
                 contents := Parts [TextPart (analysisPromptB H)];
                 jsonConfig := true |} :: evs).
Proof.
  intros H.
  apply (analyzeB_sends_prompt_alone H [Sim.imageFile "figure.png"] Sim.world0).
  - vm_compute. lia.
  - vm_compute; reflexivity.
Defined.

(* ================================================================== *)
(** * The advisory dialogue and the text tools *)
(* ================================================================== *)

Lemma sliceLast_app {A} (n : nat) (older recent : list A) :
  length recent = n -> sliceLast n (older ++ recent) = recent.
Proof.
  intros Hlen. unfold sliceLast. rewrite length_app, Hlen.
  replace (length older + n - n) with (length older) by lia.
  rewrite skipn_app, skipn_all, Nat.sub_diag. reflexivity.
Qed.

Lemma sliceLast_short {A} (n : nat) (xs : list A) :
  length xs <= n -> sliceLast n xs = xs.
Proof.
  intros Hlen. unfold sliceLast.
  replace (length xs - n) with 0 by lia. reflexivity.
Qed.

(** X13. The advisory dialogue reads only the last ten turns of the
    history: turns before them never change the request, hence never the
    run; a history of at most ten turns is sent whole. *)
Theorem consultCPO_history_window :
  forall (H : Host) (query : string) (older recent : list ChatMessage)
         (context : PaperContext),
    (length recent = 10 ->
     VariantB.conversation (older ++ recent) = VariantB.conversation recent /\
     VariantB.consultCPO H query (older ++ recent) context =
       VariantB.consultCPO H query recent context) /\
    (length recent <= 10 ->
     VariantB.conversation recent =
       join nl (map (fun h => roleName (role h) ++ ": " ++ text h) recent)).
Proof.
  intros H query older recent context. split.
  - intros Hlen.
    assert (Hc : VariantB.conversation (older ++ recent) = VariantB.conversation recent).
    { unfold VariantB.conversation. rewrite (sliceLast_app 10 older recent Hlen).
      now rewrite (sliceLast_short 10 recent) by lia. }
    split; [exact Hc |].
    unfold VariantB.consultCPO, VariantB.cpoRequest. now rewrite Hc.
  - intros Hlen. unfold VariantB.conversation. now rewrite sliceLast_short.
Qed.

Lemma consultCPO_history_window_witness :
  let turn := fun n => {| role := user; text := "q"; timestamp := n |} in
  let recent := map turn [1; 2; 3; 4; 5; 6; 7; 8; 9; 10]%Z in
  VariantB.conversation (turn 0%Z :: recent) = VariantB.conversation recent.
Proof.
  intros turn recent.
  apply (proj1 (proj1 (consultCPO_history_window
                         (Sim.alwaysRejects "x") "?" [turn 0%Z] recent
                         {| pcTitle := ""; pcGap := ""; pcNovelty := "" |})
                  eq_refl)).
Defined.

Lemma applyMagicTool_events (H : Host) (text : string) (tool : MagicToolType) (w : World) :
  exists result w' k evs,
    VariantB.applyMagicTool H text tool w = (Ok result, w') /\
    trace w' = (trace w ++ evs)%list /\
    k <= 3 /\
    callsOf evs = repeat (VariantB.magicRequest text tool) (S k) /\
    delaysOf evs = backoff k 2000 /\
    alertsOf evs = [].
Proof.
  destruct (callWithRetryB_budget H (VariantB.magicRequest text tool) 3 2000%Z w)
    as (k & evs & Hk & Htr & Hc & Hd & Ha).
  unfold VariantB.applyMagicTool, tryCatch, bind.
  destruct (VariantB.callWithRetry H _ 3 2000%Z w) as [[r | e] w1]; simpl in Htr;
    eexists _, w1, k, evs; repeat split; auto.
Qed.

Lemma consultCPO_events (H : Host) (query : string) (history : list ChatMessage)
      (context : PaperContext) (w : World) :
  exists reply w' evs,
    VariantB.consultCPO H query history context w = (Ok reply, w') /\
    reply <> "" /\
    trace w' = (trace w ++ evs)%list /\
    1 <= length (callsOf evs) <= 8 /\
    alertsOf evs = [].
Proof.
  destruct (callWithRetryB_budget H (VariantB.cpoRequest proModel query history context)
              3 2000%Z w) as (k1 & evs1 & Hk1 & Htr1 & Hc1 & _ & Ha1).
  unfold VariantB.consultCPO, tryCatch, bind.
  destruct (VariantB.callWithRetry H
              (generateContent H (VariantB.cpoRequest proModel query history context))
              3 2000%Z w) as [[r | e] w1]; simpl in Htr1.
  - eexists _, w1, evs1. split; [reflexivity |].
    split; [apply orElse_nonempty; discriminate |].
    split; [exact Htr1 |]. split; [rewrite Hc1, repeat_length; lia | exact Ha1].
  - destruct (callWithRetryB_budget H (VariantB.cpoRequest flashModel query history context)
                3 2000%Z w1) as (k2 & evs2 & Hk2 & Htr2 & Hc2 & _ & Ha2).
    assert (Hn : 1 <= length (callsOf (evs1 ++ evs2)) <= 8).
    { rewrite callsOf_app, length_app, Hc1, Hc2, !repeat_length. lia. }
    assert (Hal : alertsOf (evs1 ++ evs2) = []).
    { rewrite alertsOf_app, Ha1, Ha2. reflexivity. }
    destruct (VariantB.callWithRetry H
                (generateContent H (VariantB.cpoRequest flashModel query history context))
                3 2000%Z w1) as [[r | e2] w2]; simpl in Htr2;
      eexists _, w2, (evs1 ++ evs2)%list; (split; [reflexivity |]);
      (split; [try (apply orElse_nonempty); discriminate |]);
      (split; [rewrite Htr2, Htr1, <- app_assoc; reflexivity |]);
      split; assumption.
Qed.

(** X14. The budgets of the text tool and of the advisory dialogue: a
    text transform makes at most four calls, all of the same request, with
    the waits of the schedule between them; a consultation makes between one
    and eight calls; neither ever shows an alert. *)
Theorem tool_call_budgets :
  forall (H : Host) (w : World),
    (forall text tool,
        exists k evs,
          trace (snd (VariantB.applyMagicTool H text tool w)) = (trace w ++ evs)%list /\
          k <= 3 /\
          callsOf evs = repeat (VariantB.magicRequest text tool) (S k) /\
          delaysOf evs = backoff k 2000 /\
          alertsOf evs = []) /\
    (forall query history context,
        exists evs,
          trace (snd (VariantB.consultCPO H query history context w)) =
            (trace w ++ evs)%list /\
          1 <= length (callsOf evs) <= 8 /\
          alertsOf evs = []).
Proof.
  intros H w. split.
  - intros text tool.
    destruct (applyMagicTool_events H text tool w)
      as (r & w' & k & evs & Hrun & Htr & Hk & Hc & Hd & Ha).
    exists k, evs. rewrite Hrun. repeat split; auto.
  - intros query history context.
    destruct (consultCPO_events H query history context w)
      as (r & w' & evs & Hrun & _ & Htr & Hn & Ha).
    exists evs. rewrite Hrun. repeat split; auto; lia.
Qed.

(* ================================================================== *)
(** * Uploads *)
(* ================================================================== *)

Lemma toLowerCase_length (s : string) : String.length (toLowerCase s) = String.length s.
Proof. induction s as [| c r IH]; simpl; [reflexivity | now rewrite IH]. Qed.

Lemma toLowerCase_substring (s : string) :
  forall n m, toLowerCase (substring n m s) = substring n m (toLowerCase s).
Proof.
  induction s as [| c r IH]; intros n m.
  - destruct n, m; reflexivity.
  - destruct n as [| n].
    + destruct m as [| m]; simpl; [reflexivity | now rewrite IH].
    + simpl. apply IH.
Qed.

Lemma endsWith_toLowerCase (s suf : string) :
  endsWith s suf = true -> endsWith (toLowerCase s) (toLowerCase suf) = true.
Proof.
  unfold endsWith. rewrite !toLowerCase_length.
  intros Hs. apply andb_prop in Hs as [Hlen Heq].
  rewrite Hlen. simpl. apply String.eqb_eq in Heq.
  rewrite <- toLowerCase_substring, Heq. apply String.eqb_refl.
Qed.

Lemma endsWith_lower_suffix (s suf : string) :
  toLowerCase suf = suf -> endsWith s suf = true -> endsWith (toLowerCase s) suf = true.
Proof. intros Hl Hs. rewrite <- Hl. now apply endsWith_toLowerCase. Qed.

Lemma uploaded_type_includes (t marker : string) :
  includes "application/octet-stream" marker = false ->
  includes (if truthy t then t else "application/octet-stream") marker = true ->
  includes t marker = true.
Proof. destruct (truthy t); [intros _ Hi; exact Hi | congruence]. Qed.

(** X15. In the second application no document the attachment preparer
    supports is refused at upload: a file whose uploaded form is
    [supported] passes the filter of [handleFileUpload].  The converse
    fails: the filter lowers the case of the name and knows the PDF suffix,
    the preparer does neither, so [SCAN.PDF] without a declared type is
    accepted at upload and then yields no part. *)
Theorem uploadB_accepts_supported :
  (forall (file : BrowserFile) (content : string),
      supported (AppB.uploaded file content) = true ->
      AppB.uploadAccepts file = true) /\
  (forall H : Host,
      AppB.uploadAccepts {| fileName := "SCAN.PDF"; fileType := "" |} = true /\
      VariantB.prepareFilePart H
        (AppB.uploaded {| fileName := "SCAN.PDF"; fileType := "" |} "JVBERg==") = None).
Proof.
  split.
  - intros [n t] content. unfold supported, declaredPdf, textLike, textSuffixes,
      AppB.uploaded, AppB.uploadAccepts. cbn [name type fileName fileType existsb].
    intros Hs.
    apply orb_prop in Hs as [Hpdf | Htext].
    + rewrite (uploaded_type_includes t "pdf" eq_refl Hpdf). apply orb_true_r.
    + apply orb_prop in Htext as [Htype | Hsuf].
      * rewrite (uploaded_type_includes t "text" eq_refl Htype).
        rewrite orb_true_r. reflexivity.
      * repeat (apply orb_prop in Hsuf as [Hsuf | Hsuf]);
          try discriminate;
          apply (endsWith_lower_suffix n _ eq_refl) in Hsuf;
          rewrite Hsuf; rewrite ?orb_true_r; reflexivity.
  - intros H. split; vm_compute; reflexivity.
Qed.

Lemma uploadB_accepts_supported_witness :
  AppB.uploadAccepts {| fileName := "proof.tex"; fileType := "" |} = true.
Proof.
  apply (proj1 uploadB_accepts_supported
           {| fileName := "proof.tex"; fileType := "" |} "aGVsbG8=").
  vm_compute; reflexivity.
Defined.

Lemma uploadA_single (H : Host) (file : BrowserFile) (content : string) :
  AppA.uploadAccepts file = true ->
  length (VariantA.prepareFileParts H [AppA.uploaded file content]) = 1.
Proof.
  destruct file as [n t]. unfold AppA.uploadAccepts, AppA.uploaded, VariantA.prepareFileParts.
  cbn [fileName fileType name type data mapNonNull].
  intros Hacc. apply negb_true_iff in Hacc.
  destruct (String.eqb_spec t "application/pdf") as [-> | _]; [reflexivity |].
  destruct (String.eqb_spec t "text/plain") as [-> | _]; [reflexivity |].
  simpl in Hacc. apply negb_false_iff in Hacc. rewrite Hacc.
  destruct (includes (if truthy t then t else "application/octet-stream") "pdf");
    [reflexivity |].
  rewrite orb_true_r. reflexivity.
Qed.

(** X16. In the first application every file that passes the check of
    [handleFileUpload] is one [prepareFileParts] keeps: a list of accepted
    uploads yields exactly one part per file, so none is silently
    dropped. *)
Theorem uploadA_accepted_are_prepared :
  forall (H : Host) (selected : list (BrowserFile * string)),
    Forall (fun fc => AppA.uploadAccepts (fst fc) = true) selected ->
    length (VariantA.prepareFileParts H
              (map (fun fc => AppA.uploaded (fst fc) (snd fc)) selected)) =
    length selected.
Proof.
  intros H selected Hall. induction Hall as [| [file content] rest Hacc _ IH];
    [reflexivity |].
  cbn [map fst snd]. rewrite prepareFileParts_cons, length_app, IH.
  cbn [fst] in Hacc. now rewrite (uploadA_single H file content Hacc).
Qed.

Lemma uploadA_accepted_are_prepared_witness :
  let H := Sim.host (Sim.scripted [] (Sim.answer "ok")) Sim.quiet in
  length (VariantA.prepareFileParts H
            (map (fun fc => AppA.uploaded (fst fc) (snd fc))
               [({| fileName := "paper.pdf"; fileType := "application/pdf" |},
                 "data:application/pdf;base64,JVBERg==");
                ({| fileName := "notes.txt"; fileType := "" |},
                 "data:application/octet-stream;base64,aGVsbG8=")])) = 2.
Proof.
  intros H.
  apply (uploadA_accepted_are_prepared H
           [({| fileName := "paper.pdf"; fileType := "application/pdf" |},
             "data:application/pdf;base64,JVBERg==");
            ({| fileName := "notes.txt"; fileType := "" |},
             "data:application/octet-stream;base64,aGVsbG8=")]).
  repeat constructor.
Defined.

Lemma dropIndexFrom_past {A} (xs : list A) :
  forall i index, index < i -> dropIndexFrom i index xs = xs.
Proof.
  induction xs as [| x rest IH]; intros i index Hlt; simpl; [reflexivity |].
  destruct (Nat.eqb_spec i index); [lia |]. now rewrite IH by lia.
Qed.

Lemma dropIndexFrom_spec {A} (xs : list A) :
  forall i index, i <= index ->
    dropIndexFrom i index xs =
    (firstn (index - i) xs ++ skipn (S (index - i)) xs)%list.
Proof.
  induction xs as [| x rest IH]; intros i index Hle; simpl.
  - destruct (index - i); reflexivity.
  - destruct (Nat.eqb_spec i index) as [-> | Hne].
    + rewrite Nat.sub_diag. simpl. apply dropIndexFrom_past. lia.
    + rewrite IH by lia. replace (index - i) with (S (index - S i)) by lia.
      reflexivity.
Qed.

Lemma withFiles_same (st : ResearchState) : withFiles st (files st) = st.
Proof. destruct st; reflexivity. Qed.

(** X17. [removeFile] removes exactly the file at the given position and
    nothing else: the files before and after it keep their order, the rest
    of the session (manuscript, sections, chat) is untouched, and a position
    past the end changes nothing. *)
Theorem removeFile_removes_one :
  forall (index : nat) (prev : ResearchState),
    files (AppB.removeFile index prev) =
      (firstn index (files prev) ++ skipn (S index) (files prev))%list /\
    sameManuscript prev (AppB.removeFile index prev) /\
    chatHistory (AppB.removeFile index prev) = chatHistory prev /\
    (index < length (files prev) ->
     S (length (files (AppB.removeFile index prev))) = length (files prev)) /\
    (length (files prev) <= index -> AppB.removeFile index prev = prev).
Proof.
  intros index prev.
  assert (Hfiles : files (AppB.removeFile index prev) =
                   (firstn index (files prev) ++ skipn (S index) (files prev))%list).
  { unfold AppB.removeFile. cbn [files withFiles].
    rewrite dropIndexFrom_spec by lia. now rewrite Nat.sub_0_r. }
  split; [exact Hfiles |]. split; [repeat split |]. split; [reflexivity |]. split.
  - intros Hlt. rewrite Hfiles, length_app, length_firstn, length_skipn. lia.
  - intros Hge. unfold AppB.removeFile.
    rewrite dropIndexFrom_spec, Nat.sub_0_r by lia.
    rewrite firstn_all2, skipn_all2, app_nil_r by lia.
    apply withFiles_same.
Qed.

Lemma removeFile_removes_one_witness :
  let st := withFiles initialState [Sim.pdfFile "a.pdf"; Sim.imageFile "b.png";
                                    Sim.textFile "c.txt"] in
  S (length (files (AppB.removeFile 1 st))) = 3 /\
  AppB.removeFile 3 st = st.
Proof.
  intros st. split.
  - apply (proj1 (proj2 (proj2 (proj2 (removeFile_removes_one 1 st))))).
    vm_compute. lia.
  - apply (proj2 (proj2 (proj2 (proj2 (removeFile_removes_one 3 st))))).
    vm_compute. lia.
Defined.

(* ================================================================== *)
(** * Committing an analysis, and drafting after it *)
(* ================================================================== *)

Lemma titleSections_frame (ttl : string) (secs : list PaperSection) :
  Forall2 (sectionRetitled ttl) secs (titleSections ttl secs).
Proof.
  induction secs as [| s rest IH]; simpl; constructor; [| exact IH].
  unfold sectionRetitled.
  destruct (sectionType s) eqn:Hty; simpl;
    repeat split; intros; try reflexivity; try congruence; try contradiction.
Qed.

(** X18. Committing an analysis in the second application replaces the
    manuscript metadata and the content of the title section, appends
    exactly one assistant turn to the chat and opens the chat; the files,
    the earlier chat turns and every section other than the title are left
    as they were.  A missing [references] field becomes the empty list.  In
    the first application the commit leaves the chat and the references
    alone and retitles the same way. *)
Theorem commitAnalysis_frame :
  forall (state : ResearchState) (result : AnalysisResult) (now : Z)
         (prev : ResearchState),
    let next := AppB.commitAnalysis state result now prev in
    files next = files prev /\
    activeSectionId next = activeSectionId prev /\
    isChatOpen next = true /\
    (exists turn,
        chatHistory next = (chatHistory prev ++ [turn])%list /\
        role turn = model /\ timestamp turn = now) /\
    Forall2 (sectionRetitled (arTitle result)) (sections prev) (sections next) /\
    (arReferences result = None -> extractedReferences next = []) /\
    hasAnalysis next = truthy (arNovelty result) /\
    (let nextA := AppA.commitAnalysis result prev in
     files nextA = files prev /\
     chatHistory nextA = chatHistory prev /\
     extractedReferences nextA = extractedReferences prev /\
     Forall2 (sectionRetitled (arTitle result)) (sections prev) (sections nextA) /\
     hasAnalysis nextA = truthy (arNovelty result)).
Proof.
  intros state result now prev next. subst next.
  unfold AppB.commitAnalysis, AppA.commitAnalysis.
  cbn [files activeSectionId isChatOpen chatHistory sections extractedReferences].
  split; [reflexivity |]. split; [reflexivity |]. split; [reflexivity |].
  split; [eexists; split; [reflexivity | split; reflexivity] |].
  split; [apply titleSections_frame |].
  split; [intros ->; reflexivity |]. split; [reflexivity |].
  repeat (split; [reflexivity |]).
  split; [apply titleSections_frame | reflexivity].
Qed.

Lemma commitAnalysis_frame_witness :
  extractedReferences
    (AppB.commitAnalysis initialState
       {| arTitle := "T"; arTargetJournal := "J"; arGap := "G"; arNovelty := "N";
          arMethodologyPlan := "M"; arExpectedResults := "E";
          arChecklist := {| novelty_check := "a"; significance_check := "b";
                            clarity_check := "c"; journal_fit_check := "d" |};
          arReferences := None |} 7 initialState) = [].
Proof.
  apply (proj1 (proj2 (proj2 (proj2 (proj2 (proj2
           (commitAnalysis_frame initialState
              {| arTitle := "T"; arTargetJournal := "J"; arGap := "G"; arNovelty := "N";
                 arMethodologyPlan := "M"; arExpectedResults := "E";
                 arChecklist := {| novelty_check := "a"; significance_check := "b";
                                   clarity_check := "c"; journal_fit_check := "d" |};
                 arReferences := None |} 7 initialState))))))).
  reflexivity.
Defined.





(* ================================================================== *)
(** * The chat and the editor *)
(* ================================================================== *)

Lemma trimStart_space (ch s : string) :
  In ch whiteSpaceChars -> trimStart (ch ++ s) = trimStart s.
Proof.
  unfold whiteSpaceChars. cbn [map In].
  intros Hin.
  repeat (destruct Hin as [<- | Hin]; [reflexivity |]).
  contradiction.
Qed.

Lemma trimStart_blank (s : string) : blank s -> trimStart s = "".
Proof.
  intros (chars & Hall & ->).
  induction Hall as [| ch rest Hch _ IH]; [reflexivity |].
  cbn [fold_right]. now rewrite trimStart_space.
Qed.

Lemma trim_blank (s : string) : blank s -> trim s = "".
Proof. intros Hb. unfold trim. now rewrite trimStart_blank. Qed.

(** X20. [handleChatSubmit] returns at once, sending nothing and leaving
    the state untouched, whenever the trimmed input is empty; that is so
    for every input made of white space only, of any of the characters
    [trim] removes (no-break space and the other Unicode spaces included).
    Otherwise it never throws and shows no alert: it appends the user's
    turn, consults with the history of its snapshot (the turns before this
    one), and appends one assistant turn, whose text is never empty, to the
    chat as it is when the reply arrives. *)
Theorem handleChatSubmit_appends_reply :
  forall (H : Host) (state : ResearchState) (chatInput : string) (sent answered : Z)
         (w : World),
    (truthy (trim chatInput) = false ->
     AppB.handleChatSubmit H state chatInput sent answered w = (Ok tt, w)) /\
    (blank chatInput ->
     AppB.handleChatSubmit H state chatInput sent answered w = (Ok tt, w)) /\
    (truthy (trim chatInput) = true ->
     exists reply latest evs,
       VariantB.consultCPO H chatInput (chatHistory state)
         {| pcTitle := paperTitle state; pcGap := researchGap state;
            pcNovelty := noveltyClaim state |}
         (afterUpdate
            (appendChat {| role := user; text := chatInput; timestamp := sent |}) w) =
         (Ok reply, {| trace := trace w ++ evs; store := latest |}) /\
       reply <> "" /\
       alertsOf evs = [] /\
       1 <= length (callsOf evs) <= 8 /\
       AppB.handleChatSubmit H state chatInput sent answered w =
         (Ok tt,
          {| trace := trace w ++ evs;
             store := appendChat {| role := model; text := reply; timestamp := answered |}
                        latest |})).
Proof.
  intros H state chatInput sent answered w. split; [| split].
  - intros Hempty. unfold AppB.handleChatSubmit. now rewrite Hempty.
  - intros Hblank. unfold AppB.handleChatSubmit. now rewrite (trim_blank _ Hblank).
  - intros Hinput.
    assert (Heq : AppB.handleChatSubmit H state chatInput sent answered w =
                  match VariantB.consultCPO H chatInput (chatHistory state)
                          {| pcTitle := paperTitle state; pcGap := researchGap state;
                             pcNovelty := noveltyClaim state |}
                          (afterUpdate
                             (appendChat {| role := user; text := chatInput;
                                            timestamp := sent |}) w) with
                  | (Ok reply, w') =>
                      (Ok tt, afterUpdate
                                (appendChat {| role := model; text := reply;
                                               timestamp := answered |}) w')
                  | (Throw e, w') => (Throw e, w')
                  end).
    { unfold AppB.handleChatSubmit. rewrite Hinput. reflexivity. }
    destruct (consultCPO_events H chatInput (chatHistory state)
                {| pcTitle := paperTitle state; pcGap := researchGap state;
                   pcNovelty := noveltyClaim state |}
                (afterUpdate
                   (appendChat {| role := user; text := chatInput; timestamp := sent |}) w))
      as (reply & [tr latest] & evs & Hrun & Hne & Htr & Hn & Ha).
    simpl in Htr. subst tr.
    exists reply, latest, evs. split; [exact Hrun |]. split; [exact Hne |].
    split; [exact Ha |]. split; [exact Hn |].
    rewrite Heq, Hrun. reflexivity.
Qed.

Lemma handleChatSubmit_appends_reply_witness :
  let H := Sim.host (Sim.scripted [] (Sim.answer "Aim for JAR.")) Sim.quiet in
  let w := {| trace := []; store := Sim.analysedState |} in
  AppB.handleChatSubmit H Sim.analysedState (bytes [32; 194; 160; 9]) 1 2 w = (Ok tt, w) /\
  AppB.handleChatSubmit H Sim.analysedState (bytes [227; 128; 128]) 1 2 w = (Ok tt, w) /\
  exists reply latest evs,
    reply <> "" /\
    AppB.handleChatSubmit H Sim.analysedState "Which venue?" 1 2 w =
      (Ok tt,
       {| trace := evs;
          store := appendChat {| role := model; text := reply; timestamp := 2 |} latest |}).
Proof.
  intros H w. split; [| split].
  - apply (proj1 (proj2 (handleChatSubmit_appends_reply H Sim.analysedState
                           (bytes [32; 194; 160; 9]) 1 2 w))).
    exists [bytes [32]; bytes [194; 160]; bytes [9]]. split; [| reflexivity].
    repeat (apply Forall_cons;
            [unfold whiteSpaceChars; cbn [map In];
             repeat (first [left; reflexivity | right]) |]).
    apply Forall_nil.
  - apply (proj1 (handleChatSubmit_appends_reply H Sim.analysedState
                    (bytes [227; 128; 128]) 1 2 w)).
    vm_compute; reflexivity.
  - destruct (proj2 (proj2 (handleChatSubmit_appends_reply H Sim.analysedState
                              "Which venue?" 1 2 w)))
      as (reply & latest & evs & _ & Hne & _ & _ & Hrun).
    + vm_compute; reflexivity.
    + exists reply, latest, evs. split; [exact Hne | exact Hrun].
Defined.

(** [trim] on characters of one, two and three bytes: the no-break spaces
    around the text go, the accented letter and the inner space stay. *)
Example trim_unicode :
  trim (bytes [194; 160; 32; 99; 97; 102; 195; 169; 32; 97; 226; 128; 137; 10]) =
  bytes [99; 97; 102; 195; 169; 32; 97].
Proof. vm_compute; reflexivity. Qed.

(** [substring(0, n)] counts UTF-16 code units: an accented letter and the
    euro sign are one unit each whatever their bytes, a character outside
    the basic plane is two, and a cut between its halves keeps the high
    surrogate (here U+D83D of U+1F600). *)
Example substring_code_units :
  takeCodeUnits 2 (bytes [195; 169; 226; 130; 172; 97]) = bytes [195; 169; 226; 130; 172] /\
  takeCodeUnits 3 (bytes [97; 240; 159; 152; 128; 98]) = bytes [97; 240; 159; 152; 128] /\
  takeCodeUnits 2 (bytes [97; 240; 159; 152; 128; 98]) = bytes [97; 237; 160; 189] /\
  takeCodeUnits 500 "Related work." = "Related work.".
Proof. repeat split; vm_compute; reflexivity. Qed.

(** The dot of the header pattern stops at U+2028 as it does at a line
    feed: a header holding either is left in place. *)
Example cleanBase64_line_separator :
  let broken := "data:text" ++ bytes [226; 128; 168] ++ "plain;base64,aGk=" in
  cleanBase64 broken = broken /\
  cleanBase64 ("data:text" ++ nl ++ "plain;base64,aGk=") =
    "data:text" ++ nl ++ "plain;base64,aGk=" /\
  cleanBase64 "data:text/plain;base64,aGk=" = "aGk=".
Proof. repeat split; vm_compute; reflexivity. Qed.

(** What one run of the chat handler leaves in the store. *)
Example chat_turns_in_order :
  let H := Sim.host (Sim.scripted [] (Sim.answer "Aim for JAR.")) Sim.quiet in
  let w := {| trace := []; store := Sim.analysedState |} in
  chatHistory (store (snd (AppB.handleChatSubmit H Sim.analysedState "Which venue?" 1 2 w))) =
    [{| role := user; text := "Which venue?"; timestamp := 1 |};
     {| role := model; text := "Aim for JAR."; timestamp := 2 |}].
Proof. vm_compute; reflexivity. Qed.

(** X21. In the editor of the second variant the "Tool failed." alert is
    unreachable: [handleMagicTool] never throws and never shows an alert.
    On a section without content it does nothing; otherwise it writes back
    what [applyMagicTool] returned, which is the original content when the
    provider failed. *)
Theorem handleMagicTool_never_alerts :
  forall (H : Host) (section : PaperSection) (tool : MagicToolType) (w : World),
    (content section = "" ->
     EditorB.handleMagicTool H onUpdate section tool w = (Ok tt, w)) /\
    (content section <> "" ->
     exists newText w1,
       VariantB.applyMagicTool H (content section) tool w = (Ok newText, w1) /\
       EditorB.handleMagicTool H onUpdate section tool w =
         (Ok tt, afterUpdate (updateSection (id section) newText) w1)) /\
    (exists w',
        EditorB.handleMagicTool H onUpdate section tool w = (Ok tt, w') /\
        alertsOf (trace w') = alertsOf (trace w)).
Proof.
  intros H section tool w. unfold EditorB.handleMagicTool.
  destruct (applyMagicTool_events H (content section) tool w)
    as (newText & w1 & k & evs & Hrun & Htr & _ & _ & _ & Ha).
  split; [intros ->; reflexivity |]. split.
  - intros Hne.
    assert (Ht : negb (truthy (content section)) = false).
    { unfold truthy. destruct (String.eqb_spec (content section) ""); [contradiction |].
      reflexivity. }
    rewrite Ht. exists newText, w1. split; [exact Hrun |].
    unfold tryCatch, bind. rewrite Hrun. reflexivity.
  - destruct (negb (truthy (content section))).
    + exists w. split; reflexivity.
    + exists (afterUpdate (updateSection (id section) newText) w1). split.
      * unfold tryCatch, bind. rewrite Hrun. reflexivity.
      * cbn [afterUpdate trace]. rewrite Htr, alertsOf_app, Ha. apply app_nil_r.
Qed.

Lemma handleMagicTool_never_alerts_witness :
  let H := Sim.alwaysRejects "500 Internal Error" in
  let section := {| id := "Abstract"; sectionType := Abstract; title := "Abstract";
                    content := "Short."; isGenerating := false; notes := "" |} in
  exists newText w1,
    VariantB.applyMagicTool H "Short." Expand Sim.world0 = (Ok newText, w1) /\
    EditorB.handleMagicTool H onUpdate section Expand Sim.world0 =
      (Ok tt, afterUpdate (updateSection "Abstract" newText) w1).
Proof.
  intros H section.
  apply (proj1 (proj2 (handleMagicTool_never_alerts H section Expand Sim.world0))).
  discriminate.
Defined.

(** X22. In the editor of the first variant a failed refinement is
    reported and changes nothing: when the governed call fails,
    [humanizeText] throws an error whose message is never empty, and
    [handleHumanize] shows "Failed to refine text." without calling
    [onUpdate].  When the call succeeds the section receives the response
    text, or its own content back if the response has none. *)
Theorem handleHumanize_reports_failure :
  forall (H : Host) (section : PaperSection) (level : HumanizeLevel) (w w1 : World),
    content section <> "" ->
    (forall error,
        VariantA.callWithRetry H
          (generateContent H (VariantA.humanizeRequest (content section) level)) 3 2000 w =
          (Throw error, w1) ->
        VariantA.humanizeText H (content section) level w =
          (Throw (mkError (orElse (message error) "Failed to refine text")), w1) /\
        orElse (message error) "Failed to refine text" <> "" /\
        EditorA.handleHumanize H onUpdate section level w =
          (Ok tt, emit (EvAlert "Failed to refine text.") w1)) /\
    (forall response,
        VariantA.callWithRetry H
          (generateContent H (VariantA.humanizeRequest (content section) level)) 3 2000 w =
          (Ok response, w1) ->
        EditorA.handleHumanize H onUpdate section level w =
          (Ok tt,
           afterUpdate (updateSection (id section)
                          (orElse (responseText response) (content section))) w1)).
Proof.
  intros H section level w w1 Hne.
  assert (Ht : negb (truthy (content section)) = false).
  { unfold truthy. destruct (String.eqb_spec (content section) ""); [contradiction |].
    reflexivity. }
  unfold EditorA.handleHumanize, VariantA.humanizeText. rewrite Ht. split.
  - intros error Hrun. unfold tryCatch, bind. rewrite Hrun.
    split; [reflexivity |]. split; [apply orElse_nonempty; discriminate | reflexivity].
  - intros response Hrun. unfold tryCatch, bind. rewrite Hrun. reflexivity.
Qed.

Lemma handleHumanize_reports_failure_witness :
  let H := Sim.alwaysRejects "500 Internal Error" in
  let section := {| id := "Abstract"; sectionType := Abstract; title := "Abstract";
                    content := "Short."; isGenerating := false; notes := "" |} in
  EditorA.handleHumanize H onUpdate section Standard Sim.world0 =
    (Ok tt,
     {| trace := [EvCall (VariantA.humanizeRequest "Short." Standard);
                  EvAlert "Failed to refine text."];
        store := initialState |}).
Proof.
  intros H section.
  apply (proj1 (handleHumanize_reports_failure H section Standard Sim.world0
                  {| trace := [EvCall (VariantA.humanizeRequest "Short." Standard)];
                     store := initialState |} ltac:(discriminate))
           (mkError "500 Internal Error")).
  vm_compute; reflexivity.
Defined.

(* ================================================================== *)
(** * Saving, and the order of updates *)
(* ================================================================== *)


Lemma map_commute {A} (f g : A -> A) (xs : list A) :
  (forall x, f (g x) = g (f x)) -> map f (map g xs) = map g (map f xs).
Proof. intros Hfg. rewrite !map_map. apply map_ext. exact Hfg. Qed.

(** X24. The order in which the session's updates are applied does not
    matter across sections: the commit of a draft commutes with a manual
    edit of another section and with a chat turn, and edits of two different
    sections commute.  On one section the last edit wins. *)
Theorem updates_commute :
  forall (a b c c' : string) (msg : ChatMessage) (st : ResearchState),
    (a <> b ->
     commitDraft a c (updateSection b c' st) = updateSection b c' (commitDraft a c st)) /\
    commitDraft a c (appendChat msg st) = appendChat msg (commitDraft a c st) /\
    (a <> b ->
     updateSection a c (updateSection b c' st) = updateSection b c' (updateSection a c st)) /\
    updateSection a c (updateSection a c' st) = updateSection a c st.
Proof.
  intros a b c c' msg st. split; [| split; [| split]].
  - intros Hne. unfold commitDraft, updateSection, withSections. cbn. f_equal.
    apply map_commute. intros s.
    destruct (String.eqb_spec (id s) a) as [Ha | Ha],
             (String.eqb_spec (id s) b) as [Hb | Hb]; cbn;
      try (exfalso; congruence);
      rewrite ?(proj2 (String.eqb_eq _ _) Ha), ?(proj2 (String.eqb_neq _ _) Ha),
              ?(proj2 (String.eqb_eq _ _) Hb), ?(proj2 (String.eqb_neq _ _) Hb);
      reflexivity.
  - reflexivity.
  - intros Hne. unfold updateSection, withSections. cbn. f_equal.
    apply map_commute. intros s.
    destruct (String.eqb_spec (id s) a) as [Ha | Ha],
             (String.eqb_spec (id s) b) as [Hb | Hb]; cbn;
      try (exfalso; congruence);
      rewrite ?(proj2 (String.eqb_eq _ _) Ha), ?(proj2 (String.eqb_neq _ _) Ha),
              ?(proj2 (String.eqb_eq _ _) Hb), ?(proj2 (String.eqb_neq _ _) Hb);
      reflexivity.
  - unfold updateSection, withSections. cbn. f_equal.
    rewrite map_map. apply map_ext. intros s.
    destruct (String.eqb_spec (id s) a) as [Ha | Ha]; cbn;
      rewrite ?(proj2 (String.eqb_eq _ _) Ha), ?(proj2 (String.eqb_neq _ _) Ha);
      reflexivity.
Qed.

Lemma updates_commute_witness :
  commitDraft "Introduction" "A draft."
    (updateSection "Abstract" "Edited by hand." Sim.analysedState) =
  updateSection "Abstract" "Edited by hand."
    (commitDraft "Introduction" "A draft." Sim.analysedState).
Proof.
  apply (proj1 (updates_commute "Introduction" "Abstract" "A draft." "Edited by hand."
                  Sim.question Sim.analysedState)).
  discriminate.
Defined.

Lemma markGenerating_unknown (sectionId : string) (st : ResearchState) :
  Forall (fun s => id s <> sectionId) (sections st) ->
  markGenerating sectionId st = st.
Proof.
  intros Hall. unfold markGenerating.
  assert (Hmap : map (fun s => if String.eqb (id s) sectionId then startGenerating s else s)
                     (sections st) = sections st).
  { induction Hall as [| s rest Hs _ IH]; simpl; [reflexivity |].
    rewrite IH. now rewrite (proj2 (String.eqb_neq _ _) Hs). }
  rewrite Hmap. destruct st; reflexivity.
Qed.

(** X25. A drafting request for a section id that the snapshot of the
    handler does not have makes no provider call, in both applications,
    whatever else the snapshot holds.  When the guards of the handler pass
    (an analysis is present and, in the first application, every file has
    its data) it shows no alert either: it only applies the generating
    mark, which leaves the trace alone and, if the store has no section of
    that id, the store too.  When a guard fails it shows that guard's alert
    and leaves the store alone. *)
Theorem drafting_unknown_section :
  forall (H : Host) (state : ResearchState) (sectionId : string) (w : World),
    find (fun s => String.eqb (id s) sectionId) (sections state) = None ->
    callsOf (trace (snd (AppB.handleGenerateSection H state sectionId w))) =
      callsOf (trace w) /\
    callsOf (trace (snd (AppA.handleGenerateSection H state sectionId w))) =
      callsOf (trace w) /\
    (hasAnalysis state = true ->
     AppB.handleGenerateSection H state sectionId w =
       (Ok tt, afterUpdate (markGenerating sectionId) w)) /\
    (hasAnalysis state = true -> hasData state = true ->
     AppA.handleGenerateSection H state sectionId w =
       (Ok tt, afterUpdate (markGenerating sectionId) w)) /\
    (hasAnalysis state = false ->
     AppB.handleGenerateSection H state sectionId w =
       (Ok tt, emit (EvAlert "Run Analysis first.") w) /\
     AppA.handleGenerateSection H state sectionId w =
       (Ok tt, emit (EvAlert "Run 'Deep Analysis' first.") w)) /\
    (hasAnalysis state = true -> hasData state = false ->
     AppA.handleGenerateSection H state sectionId w =
       (Ok tt, emit (EvAlert "File data is missing. Re-upload files.") w)) /\
    trace (afterUpdate (markGenerating sectionId) w) = trace w /\
    alertsOf (trace (afterUpdate (markGenerating sectionId) w)) = alertsOf (trace w) /\
    store (emit (EvAlert "Run Analysis first.") w) = store w /\
    (Forall (fun s => id s <> sectionId) (sections (store w)) ->
     afterUpdate (markGenerating sectionId) w = w).
Proof.
  intros H state sectionId w Hfind.
  assert (HB : hasAnalysis state = true ->
               AppB.handleGenerateSection H state sectionId w =
                 (Ok tt, afterUpdate (markGenerating sectionId) w)).
  { intros Hyes. unfold AppB.handleGenerateSection. rewrite Hyes, Hfind. reflexivity. }
  assert (HA : hasAnalysis state = true -> hasData state = true ->
               AppA.handleGenerateSection H state sectionId w =
                 (Ok tt, afterUpdate (markGenerating sectionId) w)).
  { intros Hyes Hdata. unfold AppA.handleGenerateSection.
    rewrite Hyes, Hdata, Hfind. reflexivity. }
  assert (HnB : hasAnalysis state = false ->
                AppB.handleGenerateSection H state sectionId w =
                  (Ok tt, emit (EvAlert "Run Analysis first.") w)).
  { intros Hno. unfold AppB.handleGenerateSection. rewrite Hno. reflexivity. }
  assert (HnA : hasAnalysis state = false ->
                AppA.handleGenerateSection H state sectionId w =
                  (Ok tt, emit (EvAlert "Run 'Deep Analysis' first.") w)).
  { intros Hno. unfold AppA.handleGenerateSection. rewrite Hno. reflexivity. }
  assert (HdA : hasAnalysis state = true -> hasData state = false ->
                AppA.handleGenerateSection H state sectionId w =
                  (Ok tt, emit (EvAlert "File data is missing. Re-upload files.") w)).
  { intros Hyes Hno. unfold AppA.handleGenerateSection. rewrite Hyes, Hno. reflexivity. }
  assert (Hquiet : forall msg, callsOf (trace (emit (EvAlert msg) w)) = callsOf (trace w)).
  { intros msg. unfold emit. cbn [trace]. rewrite callsOf_app. cbn. apply app_nil_r. }
  split; [| split; [| split; [| split; [| split; [| split; [| split; [| split; [| split]]]]]]]].
  - destruct (hasAnalysis state) eqn:Hyes.
    + rewrite (HB eq_refl). reflexivity.
    + rewrite (HnB eq_refl). apply Hquiet.
  - destruct (hasAnalysis state) eqn:Hyes; [destruct (hasData state) eqn:Hdata |].
    + rewrite (HA eq_refl eq_refl). reflexivity.
    + rewrite (HdA eq_refl eq_refl). apply Hquiet.
    + rewrite (HnA eq_refl). apply Hquiet.
  - exact HB.
  - exact HA.
  - intros Hno. split; [exact (HnB Hno) | exact (HnA Hno)].
  - exact HdA.
  - reflexivity.
  - reflexivity.
  - reflexivity.
  - intros Hall. unfold afterUpdate. rewrite (markGenerating_unknown _ _ Hall).
    destruct w; reflexivity.
Qed.

Lemma drafting_unknown_section_witness :
  let H := Sim.host (Sim.scripted [] (Sim.answer "A draft.")) Sim.quiet in
  let w := {| trace := []; store := Sim.analysedState |} in
  AppB.handleGenerateSection H Sim.analysedState "Appendix" w = (Ok tt, w) /\
  AppA.handleGenerateSection H initialState "Appendix" Sim.world0 =
    (Ok tt, {| trace := [EvAlert "Run 'Deep Analysis' first."]; store := initialState |}) /\
  callsOf (trace (snd (AppB.handleGenerateSection H initialState "Appendix" Sim.world0))) = [].
Proof.
  intros H w. split; [| split].
  - destruct (drafting_unknown_section H Sim.analysedState "Appendix" w)
      as (_ & _ & Hrun & _ & _ & _ & _ & _ & _ & Hsame).
    + vm_compute; reflexivity.
    + rewrite Hrun, Hsame; [reflexivity | | vm_compute; reflexivity].
      vm_compute. repeat constructor; discriminate.
  - destruct (drafting_unknown_section H initialState "Appendix" Sim.world0)
      as (_ & _ & _ & _ & Hno & _).
    + vm_compute; reflexivity.
    + rewrite (proj2 (Hno eq_refl)). reflexivity.
  - destruct (drafting_unknown_section H initialState "Appendix" Sim.world0)
      as (Hcalls & _).
    + vm_compute; reflexivity.
    + rewrite Hcalls. reflexivity.
Defined.
